(** * prepend-license-notice: a model of scripts/prepend-license-notice.py

    The script keeps one licence notice at the head of every source file of a
    Git work tree.  This development embeds its functions and proves the
    properties its specification states about them.

    Conventions of the embedding.
    - A Python [str] is a [string]; its characters are the code points
      U+0000..U+00FF.  The content of a file is its text, as [open] in text
      mode decodes it, before the translation of line ends: a value of
      [string] is the sequence of the decoded characters, not of the stored
      bytes.  A file that cannot be decoded has no text; the helpers raise
      [UnicodeDecodeError] on it, and such files and characters above
      U+00FF are outside the embedding.
    - Files are opened in text mode with the default [newline=None]: reading
      translates CR LF and a lone CR to LF (universal newlines), writing on a
      POSIX system stores the text as it is.
    - A Python [int] is a [Z]; slices and subscripts with a negative number
      count from the end, a subscript out of range raises [IndexError]
      (here: [None]).
    - [subprocess.run(..., check=True)] either returns the captured output,
      raises [CalledProcessError] (the command ran and exited with a status
      other than 0) or raises another exception (the command could not be
      started). *)

From Stdlib Require Import ZArith Ascii String List Lia Bool.
From stdpp Require Import base option list strings gmap.

Local Open Scope Z_scope.

(** ** Python text primitives *)

Module Py.

Definition LF : ascii := "010"%char.
Definition CR : ascii := "013"%char.

(** The one-character string [chr(10)]. *)
Definition nl : string := String LF "".

(** [c.isspace()] for the code points below 256. *)
Definition isspace (c : ascii) : bool :=
  match c with
  | "009" | "010" | "011" | "012" | "013"
  | "028" | "029" | "030" | "031" | " " | "133" | "160" => true
  | _ => false
  end%char.

(** Line boundaries of [str.splitlines] for the code points below 256. *)
Definition is_linebreak (c : ascii) : bool :=
  match c with
  | "010" | "011" | "012" | "013" | "028" | "029" | "030" | "133" => true
  | _ => false
  end%char.

(** [c.lower()] for the code points below 256: A-Z and the Latin-1 capitals
    (U+00C0..U+00DE without the multiplication sign U+00D7) move up by 32. *)
Definition lower_char (c : ascii) : ascii :=
  let n := N_of_ascii c in
  if ((65 <=? n) && (n <=? 90))%N then ascii_of_N (n + 32)
  else if ((192 <=? n) && (n <=? 222) && negb (n =? 215))%N
       then ascii_of_N (n + 32)
  else c.

Fixpoint lower (s : string) : string :=
  match s with
  | EmptyString => EmptyString
  | String c s' => String (lower_char c) (lower s')
  end.

(** [s.startswith(p)] *)
Fixpoint startswith (p s : string) : bool :=
  match p with
  | EmptyString => true
  | String a p' =>
      match s with
      | EmptyString => false
      | String b s' => Ascii.eqb a b && startswith p' s'
      end
  end.

(** [needle in hay] *)
Fixpoint str_in (needle hay : string) : bool :=
  startswith needle hay ||
  match hay with
  | EmptyString => false
  | String _ hay' => str_in needle hay'
  end.

Fixpoint lstrip (s : string) : string :=
  match s with
  | EmptyString => EmptyString
  | String c s' => if isspace c then lstrip s' else s
  end.

Fixpoint rstrip (s : string) : string :=
  match s with
  | EmptyString => EmptyString
  | String c s' =>
      match rstrip s' with
      | EmptyString => if isspace c then EmptyString else String c EmptyString
      | r => String c r
      end
  end.

(** [s.strip()] *)
Definition strip (s : string) : string := rstrip (lstrip s).

(** Put a character in front of the first line of a list of lines. *)
Definition push_char (c : ascii) (ls : list string) : list string :=
  match ls with
  | [] => [String c EmptyString]
  | l :: ls' => String c l :: ls'
  end.

(** [s.splitlines()]: split at every line boundary, CR LF counting as one;
    the boundaries are not kept. *)
Fixpoint splitlines (s : string) : list string :=
  match s with
  | EmptyString => []
  | String c s' =>
      if Ascii.eqb c CR then
        match s' with
        | String c' s'' =>
            if Ascii.eqb c' LF then EmptyString :: splitlines s''
            else EmptyString :: splitlines s'
        | EmptyString => [EmptyString]
        end
      else if is_linebreak c then EmptyString :: splitlines s'
      else push_char c (splitlines s')
  end.

(** What a text-mode read delivers: CR LF and CR become LF. *)
Fixpoint universal_newlines (s : string) : string :=
  match s with
  | EmptyString => EmptyString
  | String c s' =>
      if Ascii.eqb c CR then
        match s' with
        | String c' s'' =>
            if Ascii.eqb c' LF then String LF (universal_newlines s'')
            else String LF (universal_newlines s')
        | EmptyString => nl
        end
      else String c (universal_newlines s')
  end.

(** Cut a text after every LF; the LF stays at the end of its line. *)
Fixpoint split_keepends (s : string) : list string :=
  match s with
  | EmptyString => []
  | String c s' =>
      if Ascii.eqb c LF then nl :: split_keepends s'
      else push_char c (split_keepends s')
  end.

(** [f.readlines()] on a file opened with [open('r')]. *)
Definition readlines (content : string) : list string :=
  split_keepends (universal_newlines content).

(** [f.writelines(lines)] on a file just truncated. *)
Definition writelines (lines : list string) : string :=
  foldr String.append EmptyString lines.

(** [l[:stop]] *)
Definition slice_to {A} (l : list A) (stop : Z) : list A :=
  if stop <? 0 then take (Z.to_nat (Z.of_nat (length l) + stop)) l
  else take (Z.to_nat stop) l.

(** [l[start:]] *)
Definition slice_from {A} (l : list A) (start : Z) : list A :=
  if start <? 0 then drop (Z.to_nat (Z.of_nat (length l) + start)) l
  else drop (Z.to_nat start) l.

(** [l[i]]; [None] stands for [IndexError]. *)
Definition subscript {A} (l : list A) (i : Z) : option A :=
  if 0 <=? i then l !! Z.to_nat i
  else if 0 <=? Z.of_nat (length l) + i then l !! Z.to_nat (Z.of_nat (length l) + i)
  else None.

(** [range(start, stop)] *)
Definition range (start stop : Z) : list Z := seqZ start (stop - start).

End Py.

(** ** Results of Python calls *)

Inductive exn : Type :=
| CalledProcessError
| SystemExit (code : Z)
| IndexError
| OSError.

Inductive result (A : Type) : Type :=
| Return (a : A)
| Raise (e : exn).
Arguments Return {A} a.
Arguments Raise {A} e.

#[global] Instance result_ret : MRet result := @Return.
#[global] Instance result_bind : MBind result := fun A B f m =>
  match m with
  | Return a => f a
  | Raise e => Raise e
  end.

(** [for i in indices: st = body(st, i)], stopping at the first exception. *)
Fixpoint for_each {S I : Type} (body : S -> I -> result S) (st : S)
    (indices : list I) : result S :=
  match indices with
  | [] => Return st
  | i :: rest => st' ← body st i; for_each body st' rest
  end.

(** ** Configuration *)

Definition NOTICE : string :=
  "This file is licensed under the GNU GPL v3." +:+ Py.nl +:+
  "Copyright (C) 2026 Guanyuming He." +:+ Py.nl.

Definition NOTICE_MARKER : string :=
  "This file is licensed under the GNU GPL v3".

Definition FILE_DIRS : list string := ["src"; "scripts"].

Definition C_EXTS : gset string := {[ ".c"; ".cpp"; ".h"; ".hpp" ]}.
Definition SCRIPT_EXTS : gset string := {[ ".sh"; ".bash"; ".py" ]}.
Definition TEX_EXTS : gset string := {[ ".tex" ]}.

(** ** Git queries

    What running one git command does, as [subprocess.run] sees it. *)

Inductive process_outcome : Type :=
| Exited (returncode : Z) (stdout : string)
| NotStarted.

(** [subprocess.run(cmd, capture_output=True, text=True, check=True).stdout] *)
Definition subprocess_run (o : process_outcome) : result string :=
  match o with
  | Exited 0 stdout => Return stdout
  | Exited _ _ => Raise CalledProcessError
  | NotStarted => Raise OSError
  end.

(** [git rev-parse --is-inside-work-tree] *)
Definition is_git_work_tree (git : process_outcome) : result bool :=
  match subprocess_run git with
  | Return stdout => Return (String.eqb (Py.strip stdout) "true")
  | Raise CalledProcessError => Return false
  | Raise e => Raise e
  end.

(** [git rev-parse --show-toplevel]; the path is the stripped output. *)
Definition git_root (git : process_outcome) : result string :=
  match subprocess_run git with
  | Return stdout => Return (Py.strip stdout)
  | Raise CalledProcessError => Raise (SystemExit 1)
  | Raise e => Raise e
  end.

(** [git status --porcelain] *)
Definition git_work_tree_clean (git : process_outcome) : result bool :=
  match subprocess_run git with
  | Return stdout =>
      if negb (String.eqb (Py.strip stdout) "") then Return false
      else Return true
  | Raise CalledProcessError => Return false
  | Raise e => Raise e
  end.

(** ** File helpers

    A helper of the script opens the file at its path argument, reads it and
    writes it back.  Here the path argument is the content stored there and
    the value is the content left behind; [decide_notice], which also looks at
    the name, takes [file_path.suffix] next to the content. *)

(** The [ln] loop of [has_file_notice]: [unread] is what [f.readline()] has
    not consumed yet; at the end of the file [readline] gives the empty
    string. *)
Fixpoint has_file_notice_loop (n : nat) (ln : Z) (unread : list string) : Z :=
  match n with
  | O => -1
  | S n' =>
      let line := hd EmptyString unread in
      if Py.str_in "This file is licensed under the GNU GPL v3" line then ln
      else has_file_notice_loop n' (ln + 1) (tl unread)
  end.

Definition has_file_notice (content : string) (end_ : Z) : Z :=
  has_file_notice_loop (Z.to_nat end_) 0 (Py.readlines content).

Definition insert_notice (content prefix : string) (insert_line : Z) : string :=
  let lines := Py.readlines content in
  let notice_lines :=
    map (fun line => prefix +:+ line +:+ Py.nl) (Py.splitlines NOTICE) in
  let insert_index := Z.max 0 (Z.min insert_line (Z.of_nat (length lines))) in
  let lines :=
    Py.slice_to lines insert_index ++ notice_lines ++
    [Py.nl] ++
    Py.slice_from lines insert_index in
  Py.writelines lines.

(** The values of the variable [skipping] of [remove_existing_notice]. *)
Inductive skipping : Type :=
| actively_scan    (* 0 *)
| found_skipping   (* 1 *)
| dont_scan.       (* 2 *)

Definition remove_loop_body (lines : list string)
    (st : skipping * list string) (i : Z) : result (skipping * list string) :=
  let '(skipping, out) := st in
  match skipping with
  | actively_scan =>
      line ← from_option Return (Raise IndexError) (Py.subscript lines i);
      if Py.str_in NOTICE_MARKER line then Return (found_skipping, out)
      else Return (actively_scan, out ++ [line])
  | found_skipping =>
      line ← from_option Return (Raise IndexError) (Py.subscript lines i);
      if String.eqb (Py.strip line) "" then Return (dont_scan, out)
      else Return (found_skipping, out)
  | dont_scan =>
      line ← from_option Return (Raise IndexError) (Py.subscript lines i);
      Return (dont_scan, out ++ [line])
  end.

(** An exception leaves the loop before the file is truncated: nothing is
    written then. *)
Definition remove_existing_notice (content : string) (start : Z) : result string :=
  let lines := Py.readlines content in
  let out := Py.slice_to lines start in
  '(_, out) ← for_each (remove_loop_body lines) (actively_scan, out)
                (Py.range start (Z.of_nat (length lines)));
  Return (Py.writelines out).

Definition decide_notice (suffix content : string) : result string :=
  let old := has_file_notice content 5 in
  content ← (if negb (old =? -1) then remove_existing_notice content old
             else Return content);
  let suffix := Py.lower suffix in
  let '(prefix, insert_line) :=
    if bool_decide (suffix ∈ C_EXTS) then ("// ", 0)
    else if bool_decide (suffix ∈ SCRIPT_EXTS) then
      let first_line := hd EmptyString (Py.readlines content) in
      ("# ", if Py.startswith "#!" first_line then 1 else 0)
    else if bool_decide (suffix ∈ TEX_EXTS) then ("% ", 0)
    else ("// ", 0) in
  Return (insert_notice content prefix insert_line).

(** ** The command line

    The file system as [main] sees it.  The script never creates, deletes or
    renames anything, so the regular files are the keys of a map from
    absolute paths to contents and everything else about paths is fixed:
    [pathlib] and [os] enter as the functions below. *)

Section Main.

Variable is_absolute : string -> bool.            (* Path.is_absolute *)
Variable joinpath : string -> string -> string.   (* root / path *)
Variable path_suffix : string -> string.          (* Path.suffix *)
Variable is_dir : string -> bool.                 (* Path.is_dir *)
Variable rglob : string -> list string.           (* Path.rglob("*") *)
Variable access_rw : string -> bool.  (* os.access(p, os.W_OK | os.R_OK) *)

Definition is_file (fs : gmap string string) (path : string) : bool :=
  bool_decide (is_Some (fs !! path)).

(** [decide_notice(path)] on the file system.  The first [open] of a file
    that is missing or not readable raises, and so does the first [open]
    for writing of a file that is not writable; both come before anything is
    written, so a file that is not readable and writable raises [OSError]
    ([PermissionError]) and keeps its content. *)
Definition decide_notice_at (path : string) (fs : gmap string string)
    : result unit * gmap string string :=
  match fs !! path with
  | None => (Raise OSError, fs)
  | Some content =>
      if negb (access_rw path) then (Raise OSError, fs)
      else
        match decide_notice (path_suffix path) content with
        | Return content' => (Return (), <[path := content']> fs)
        | Raise e => (Raise e, fs)
        end
  end.

(** [for file_path in path.rglob("*"): ...] *)
Fixpoint walk (file_paths : list string) (fs : gmap string string)
    : result unit * gmap string string :=
  match file_paths with
  | [] => (Return (), fs)
  | file_path :: rest =>
      if negb (is_file fs file_path) || negb (access_rw file_path)
      then walk rest fs
      else match decide_notice_at file_path fs with
           | (Return _, fs') => walk rest fs'
           | (Raise e, fs') => (Raise e, fs')
           end
  end.

(** [for p in args: ...] *)
Fixpoint process_args (root : string) (args : list string)
    (fs : gmap string string) : result unit * gmap string string :=
  match args with
  | [] => (Return (), fs)
  | p :: rest =>
      let path := if negb (is_absolute p) then joinpath root p else p in
      let done :=
        if is_file fs path then decide_notice_at path fs
        else if is_dir path then walk (rglob path) fs
        else (Return (), fs) in
      match done with
      | (Return _, fs') => process_args root rest fs'
      | (Raise e, fs') => (Raise e, fs')
      end
  end.

(** The answers of the three git commands of one run. *)
Record git_queries : Type := {
  rev_parse_is_inside_work_tree : process_outcome;
  rev_parse_show_toplevel : process_outcome;
  status_porcelain : process_outcome
}.

Definition main (args : list string) (git : git_queries)
    (fs : gmap string string) : result Z * gmap string string :=
  if bool_decide ("--help" ∈ args) || (length args =? 0)%nat then
    (Return 0, fs)
  else
    match is_git_work_tree (rev_parse_is_inside_work_tree git) with
    | Raise e => (Raise e, fs)
    | Return false => (Return (-1), fs)
    | Return true =>
        match git_root (rev_parse_show_toplevel git) with
        | Raise e => (Raise e, fs)
        | Return root =>
            match git_work_tree_clean (status_porcelain git) with
            | Raise e => (Raise e, fs)
            | Return false => (Return (-1), fs)
            | Return true =>
                match process_args root args fs with
                | (Return _, fs') => (Return 0, fs')
                | (Raise e, fs') => (Raise e, fs')
                end
            end
        end
    end.

End Main.

(** The exit status of [sys.exit(main())]: an integer is reduced modulo 256,
    an exception that nobody catches ends the interpreter with status 1. *)
Definition exit_status (r : result Z) : Z :=
  match r with
  | Return code => code mod 256
  | Raise (SystemExit code) => code mod 256
  | Raise _ => 1
  end.

(** ** Properties of lines, used to state the theorems *)

(** The line contains the marker. *)
Definition has_marker (line : string) : bool := Py.str_in NOTICE_MARKER line.

(** A line is blank when [strip] leaves nothing of it. *)
Definition is_blank (line : string) : bool := String.eqb (Py.strip line) "".

(** The number of notice blocks of a file: its lines that carry the marker. *)
Definition notice_count (content : string) : nat :=
  length (filter (fun l => has_marker l = true) (Py.readlines content)).

(** The block [insert_notice] builds for a prefix. *)
Definition notice_block (prefix : string) : list string :=
  [ prefix +:+ "This file is licensed under the GNU GPL v3." +:+ Py.nl;
    prefix +:+ "Copyright (C) 2026 Guanyuming He." +:+ Py.nl;
    Py.nl ].

(** No LF in the string. *)
Fixpoint lf_free (s : string) : bool :=
  match s with
  | EmptyString => true
  | String c s' => negb (Ascii.eqb c Py.LF) && lf_free s'
  end.

(** No CR in the string. *)
Fixpoint cr_free (s : string) : bool :=
  match s with
  | EmptyString => true
  | String c s' => negb (Ascii.eqb c Py.CR) && cr_free s'
  end.

(** The string is one complete line: its only LF is its last character. *)
Fixpoint terminated (s : string) : bool :=
  match s with
  | EmptyString => false
  | String c s' =>
      if Ascii.eqb c Py.LF then
        match s' with EmptyString => true | _ => false end
      else terminated s'
  end.

(** A list of lines as [readlines] gives them: every line complete, but
    the last one, which may lack its LF. *)
Fixpoint wf_lines (ls : list string) : bool :=
  match ls with
  | [] => true
  | l :: ls' =>
      match ls' with
      | [] => terminated l || (lf_free l && negb (String.eqb l ""))
      | _ => terminated l && wf_lines ls'
      end
  end.

(** Only white space in the string. *)
Fixpoint all_space (s : string) : bool :=
  match s with
  | EmptyString => true
  | String c s' => Py.isspace c && all_space s'
  end.

(** Lines as [readlines] gives them, free of CR. *)
Definition lines_ok (ls : list string) : Prop :=
  wf_lines ls = true /\ Forall (fun l => cr_free l = true) ls.

(** What the loop of [remove_existing_notice] appends to [out] while it goes
    over [ls], by the value of [skipping] it starts from. *)
Fixpoint after_blank (ls : list string) : list string :=
  match ls with
  | [] => []
  | l :: rest => if is_blank l then rest else after_blank rest
  end.

Fixpoint without_first_notice (ls : list string) : list string :=
  match ls with
  | [] => []
  | l :: rest =>
      if has_marker l then after_blank rest else l :: without_first_notice rest
  end.

Definition loop_appends (sk : skipping) (ls : list string) : list string :=
  match sk with
  | actively_scan => without_first_notice ls
  | found_skipping => after_blank ls
  | dont_scan => ls
  end.

(** The classification as the specification gives it: the lower-cased
    suffix decides the comment prefix (C-like, script-like, TeX-like, and the
    C-like prefix for anything else) and the line of the block, 0 for the
    top of the file and 1 behind the first line of a script when that line
    starts with the shebang.  [lines] is the file without its notice. *)
Definition comment_prefix (suffix : string) : string :=
  if bool_decide (Py.lower suffix ∈ C_EXTS) then "// "
  else if bool_decide (Py.lower suffix ∈ SCRIPT_EXTS) then "# "
  else if bool_decide (Py.lower suffix ∈ TEX_EXTS) then "% "
  else "// ".

Definition canonical_line (suffix : string) (lines : list string) : nat :=
  if bool_decide (Py.lower suffix ∈ C_EXTS) then 0
  else if bool_decide (Py.lower suffix ∈ SCRIPT_EXTS) then
    if Py.startswith "#!" (hd EmptyString lines) then 1 else 0
  else 0.

(** [lines] with the block for [suffix] at its canonical line. *)
Definition with_notice (suffix : string) (lines : list string) : list string :=
  take (canonical_line suffix lines) lines ++
  notice_block (comment_prefix suffix) ++
  drop (canonical_line suffix lines) lines.

(** The lines [decide_notice] has in the file when it comes to insert: all
    of them when the detector found nothing, else what the remover left. *)
Definition kept_lines (content : string) : list string :=
  let lines := Py.readlines content in
  let old := has_file_notice content 5 in
  if old =? -1 then lines
  else take (Z.to_nat old) lines ++
       without_first_notice (drop (Z.to_nat old) lines).

(** Every line that starts with the shebang is complete: it ends with its
    LF. *)
Definition shebang_lines_terminated (content : string) : Prop :=
  Forall (fun l => Py.startswith "#!" l = true -> terminated l = true)
         (Py.readlines content).

(** No line that starts with the shebang carries the marker. *)
Definition shebang_lines_unmarked (content : string) : Prop :=
  Forall (fun l => Py.startswith "#!" l = true -> has_marker l = false)
         (Py.readlines content).

(** The one line with the marker, if there is one, is the line the detector
    reports: no other line has it, and it is among the first five. *)
Definition marker_only_where_detected (content : string) : Prop :=
  forall (i : nat) l,
    Py.readlines content !! i = Some l -> has_marker l = true ->
    has_file_notice content 5 = Z.of_nat i.

(** The removal as the specification words it: the lines before
    [start_index] are copied, then lines are dropped up to and including the
    first one with the marker and on until the first blank line is dropped,
    and the rest is copied. *)
Fixpoint after_marker (ls : list string) : list string :=
  match ls with
  | [] => []
  | l :: rest => if has_marker l then rest else after_marker rest
  end.

Definition removal_as_worded (lines : list string) (start_index : nat)
    : list string :=
  take start_index lines ++ after_blank (after_marker (drop start_index lines)).

(** The value of [skipping] after one round of the loop of
    [remove_existing_notice] on [line], and after the loop has gone over
    [ls]. *)
Definition next_skipping (sk : skipping) (line : string) : skipping :=
  match sk with
  | actively_scan => if has_marker line then found_skipping else actively_scan
  | found_skipping => if is_blank line then dont_scan else found_skipping
  | dont_scan => dont_scan
  end.

Fixpoint loop_state (sk : skipping) (ls : list string) : skipping :=
  match ls with
  | [] => sk
  | l :: rest => loop_state (next_skipping sk l) rest
  end.

(** The three guards of [main] let a run through: the directory is inside
    a work tree, its top level is [root], and the tree is clean. *)
Definition guards_pass (git : git_queries) (root : string) : Prop :=
  is_git_work_tree (rev_parse_is_inside_work_tree git) = Return true /\
  git_root (rev_parse_show_toplevel git) = Return root /\
  git_work_tree_clean (status_porcelain git) = Return true.

(** The path [main] works on for the argument [p]. *)
Definition resolved_path (is_absolute : string -> bool)
    (joinpath : string -> string -> string) (root p : string) : string :=
  if negb (is_absolute p) then joinpath root p else p.

(** A small work tree to run [main] on: [/repo/src] holds a file, a file
    that is not writable and a directory. *)
Definition demo_is_absolute (p : string) : bool := Py.startswith "/" p.
Definition demo_joinpath (root p : string) : string := root +:+ "/" +:+ p.
Definition demo_suffix (p : string) : string := ".c".
Definition demo_is_dir (p : string) : bool :=
  String.eqb p "/repo/src" || String.eqb p "/repo/src/sub".
Definition demo_rglob (p : string) : list string :=
  if String.eqb p "/repo/src"
  then ["/repo/src/a.c"; "/repo/src/locked.c"; "/repo/src/sub"]
  else [].
Definition demo_access_rw (p : string) : bool :=
  negb (String.eqb p "/repo/src/locked.c").
Definition demo_git : git_queries :=
  {| rev_parse_is_inside_work_tree := Exited 0 ("true" +:+ Py.nl);
     rev_parse_show_toplevel := Exited 0 ("/repo" +:+ Py.nl);
     status_porcelain := Exited 0 "" |}.
Definition demo_fs : gmap string string :=
  {[ "/repo/src/a.c" := "int a;" +:+ Py.nl;
     "/repo/src/locked.c" := "int l;" +:+ Py.nl ]}.

(** The argument [p] names a regular file that is not both readable and
    writable: [main] opens it all the same, and [open] raises. *)
Definition denied (is_absolute : string -> bool)
    (joinpath : string -> string -> string) (access_rw : string -> bool)
    (root : string) (fs : gmap string string) (p : string) : Prop :=
  is_file fs (resolved_path is_absolute joinpath root p) = true /\
  access_rw (resolved_path is_absolute joinpath root p) = false.

(** * Lemmas *)

(** A membership in one of the suffix sets that evaluation refutes. *)
Ltac ext_absurd :=
  exfalso;
  match goal with
  | H : _ ∈ _ |- _ =>
      let H' := fresh in
      pose proof (bool_decide_pack _ H) as H'; vm_compute in H'; exact H'
  | H : _ ∉ _ |- _ =>
      apply H; refine (bool_decide_unpack _ _); vm_compute; exact I
  end.


(** ** The model at work *)

Example readlines_universal_newlines :
  Py.readlines ("a" +:+ String Py.CR Py.nl +:+ "b" +:+ String Py.CR "c")
  = ["a" +:+ Py.nl; "b" +:+ Py.nl; "c"].
Proof. reflexivity. Qed.

Example decide_notice_c_file :
  decide_notice ".c" ("int x;" +:+ Py.nl)
  = Return ("// This file is licensed under the GNU GPL v3." +:+ Py.nl +:+
            "// Copyright (C) 2026 Guanyuming He." +:+ Py.nl +:+ Py.nl +:+
            "int x;" +:+ Py.nl).
Proof. reflexivity. Qed.

(** A negative start counts from the end: the slice drops the last line and
    the loop goes over the last line and then over the whole file. *)
Example remove_existing_notice_negative_start :
  remove_existing_notice ("a" +:+ Py.nl +:+ "b" +:+ Py.nl) (-1)
  = Return ("a" +:+ Py.nl +:+ "b" +:+ Py.nl +:+ "a" +:+ Py.nl +:+ "b" +:+ Py.nl).
Proof. reflexivity. Qed.

Example remove_existing_notice_index_error :
  remove_existing_notice ("a" +:+ Py.nl) (-2) = Raise IndexError.
Proof. reflexivity. Qed.

(** A prefix with a line end in it breaks the block into more lines, and
    the remover stops at the blank line inside. *)
Example insert_notice_prefix_with_newline :
  remove_existing_notice (insert_notice ("a" +:+ Py.nl) Py.nl 0) 1
  = Return (Py.nl +:+ "Copyright (C) 2026 Guanyuming He." +:+ Py.nl +:+
            Py.nl +:+ "a" +:+ Py.nl).
Proof. reflexivity. Qed.
(** ** Strings and lines *)

Lemma str_app_cons c s t : String c s +:+ t = String c (s +:+ t).
Proof. reflexivity. Qed.

Lemma str_app_nil_r s : s +:+ "" = s.
Proof. induction s as [|c s IH]; [reflexivity|]. rewrite str_app_cons, IH. reflexivity. Qed.

Lemma str_app_assoc a b c : (a +:+ b) +:+ c = a +:+ (b +:+ c).
Proof.
  induction a as [|x a IH]; [reflexivity|].
  rewrite !str_app_cons, IH. reflexivity.
Qed.

Lemma ascii_eqb_true a b : Ascii.eqb a b = true -> a = b.
Proof. apply Ascii.eqb_eq. Qed.

Lemma writelines_cons l ls : Py.writelines (l :: ls) = l +:+ Py.writelines ls.
Proof. reflexivity. Qed.

Lemma writelines_app l1 l2 :
  Py.writelines (l1 ++ l2) = Py.writelines l1 +:+ Py.writelines l2.
Proof.
  induction l1 as [|l l1 IH]; [reflexivity|].
  rewrite <- app_comm_cons, !writelines_cons, IH, str_app_assoc. reflexivity.
Qed.

Lemma writelines_push_char c ls :
  Py.writelines (Py.push_char c ls) = String c (Py.writelines ls).
Proof. destruct ls; reflexivity. Qed.

(** Writing the lines of a text gives the text back. *)
Lemma writelines_split_keepends s : Py.writelines (Py.split_keepends s) = s.
Proof.
  induction s as [|c s IH]; [reflexivity|]. simpl.
  destruct (Ascii.eqb c Py.LF) eqn:E.
  - apply ascii_eqb_true in E. subst c.
    rewrite writelines_cons, IH. reflexivity.
  - rewrite writelines_push_char, IH. reflexivity.
Qed.

Lemma split_keepends_terminated l s :
  terminated l = true ->
  Py.split_keepends (l +:+ s) = l :: Py.split_keepends s.
Proof.
  induction l as [|c l IH]; [discriminate|]. simpl terminated.
  rewrite str_app_cons. simpl Py.split_keepends.
  destruct (Ascii.eqb c Py.LF) eqn:E.
  - apply ascii_eqb_true in E. subst c. destruct l; [|discriminate].
    reflexivity.
  - intros H. rewrite (IH H). reflexivity.
Qed.

Lemma split_keepends_partial l :
  lf_free l = true -> l <> "" -> Py.split_keepends l = [l].
Proof.
  induction l as [|c l IH]; [congruence|]. simpl. intros H _.
  apply andb_true_iff in H as [Hc Hl].
  destruct (Ascii.eqb c Py.LF); [discriminate|].
  destruct l as [|c' l]; [reflexivity|].
  rewrite IH by (auto; discriminate). reflexivity.
Qed.

Lemma wf_lines_split_keepends s : wf_lines (Py.split_keepends s) = true.
Proof.
  induction s as [|c s IH]; [reflexivity|]. simpl Py.split_keepends.
  destruct (Ascii.eqb c Py.LF) eqn:E.
  - destruct (Py.split_keepends s) eqn:Hs; [reflexivity|].
    simpl. simpl in IH. exact IH.
  - destruct (Py.split_keepends s) as [|l ls] eqn:Hs.
    + simpl. rewrite E. reflexivity.
    + simpl. simpl in IH. rewrite E. simpl.
      destruct ls; [|exact IH].
      destruct (terminated l); [reflexivity|]. simpl in *.
      apply andb_true_iff in IH as [-> _]. reflexivity.
Qed.

Lemma split_keepends_writelines ls :
  wf_lines ls = true -> Py.split_keepends (Py.writelines ls) = ls.
Proof.
  induction ls as [|l ls IH]; [reflexivity|].
  rewrite writelines_cons. destruct ls as [|l' ls].
  - simpl. intros H. apply orb_true_iff in H as [H|H].
    + rewrite (split_keepends_terminated _ _ H). reflexivity.
    + apply andb_true_iff in H as [H1 H2]. rewrite str_app_nil_r.
      apply split_keepends_partial; [exact H1|].
      intros ->. discriminate.
  - intros H. change (terminated l && wf_lines (l' :: ls) = true) in H.
    apply andb_true_iff in H as [H1 H2].
    rewrite (split_keepends_terminated _ _ H1), (IH H2). reflexivity.
Qed.

Lemma wf_lines_cons l ls :
  terminated l = true -> wf_lines ls = true -> wf_lines (l :: ls) = true.
Proof.
  intros H1 H2. destruct ls; simpl; [rewrite H1; reflexivity|].
  rewrite H1. exact H2.
Qed.

Lemma wf_lines_app l1 l2 :
  Forall (fun l => terminated l = true) l1 -> wf_lines l2 = true ->
  wf_lines (l1 ++ l2) = true.
Proof.
  induction 1 as [|l l1 Hl _ IH]; intros H2; [exact H2|].
  rewrite <- app_comm_cons. apply wf_lines_cons; auto.
Qed.

Lemma wf_lines_tail l ls : wf_lines (l :: ls) = true -> wf_lines ls = true.
Proof.
  destruct ls; [reflexivity|]. intros H.
  change (terminated l && wf_lines (s :: ls) = true) in H.
  apply andb_true_iff in H as [_ H]. exact H.
Qed.

Lemma wf_lines_head l l' ls :
  wf_lines (l :: l' :: ls) = true -> terminated l = true.
Proof.
  intros H. change (terminated l && wf_lines (l' :: ls) = true) in H.
  apply andb_true_iff in H as [H _]. exact H.
Qed.

Lemma wf_lines_drop k ls : wf_lines ls = true -> wf_lines (drop k ls) = true.
Proof.
  revert ls. induction k as [|k IH]; intros ls H; [exact H|].
  destruct ls as [|l ls]; [reflexivity|]. simpl.
  apply IH. exact (wf_lines_tail _ _ H).
Qed.

(** Every line that has a successor is complete. *)
Lemma wf_lines_take k ls :
  wf_lines ls = true -> (k < length ls)%nat ->
  Forall (fun l => terminated l = true) (take k ls).
Proof.
  revert ls. induction k as [|k IH]; intros ls H Hk; [constructor|].
  destruct ls as [|l ls]; [simpl in Hk; lia|].
  simpl in Hk. destruct ls as [|l' ls]; [simpl in Hk; lia|].
  simpl take. constructor.
  - exact (wf_lines_head _ _ _ H).
  - apply IH; [exact (wf_lines_tail _ _ H)|simpl in *; lia].
Qed.

Lemma wf_lines_all ls :
  Forall (fun l => terminated l = true) ls -> wf_lines ls = true.
Proof.
  intros H. rewrite <- (app_nil_r ls). apply wf_lines_app; auto.
Qed.

(** ** Universal newlines *)

Lemma cr_free_app a b : cr_free (a +:+ b) = cr_free a && cr_free b.
Proof.
  induction a as [|c a IH]; [reflexivity|].
  rewrite str_app_cons. simpl. rewrite IH, andb_assoc. reflexivity.
Qed.

Lemma lf_free_app a b : lf_free (a +:+ b) = lf_free a && lf_free b.
Proof.
  induction a as [|c a IH]; [reflexivity|].
  rewrite str_app_cons. simpl. rewrite IH, andb_assoc. reflexivity.
Qed.

Lemma terminated_app_nl a : terminated (a +:+ Py.nl) = lf_free a.
Proof.
  induction a as [|c a IH]; [reflexivity|].
  rewrite str_app_cons. simpl. rewrite IH.
  destruct (Ascii.eqb c Py.LF) eqn:E; [|reflexivity].
  destruct a; reflexivity.
Qed.

Lemma universal_newlines_cr_free s :
  cr_free s = true -> Py.universal_newlines s = s.
Proof.
  induction s as [|c s IH]; [reflexivity|]. simpl. intros H.
  apply andb_true_iff in H as [Hc Hs].
  destruct (Ascii.eqb c Py.CR); [discriminate|].
  rewrite (IH Hs). reflexivity.
Qed.

Lemma cr_free_universal_newlines_step s :
  cr_free (Py.universal_newlines s) = true /\
  forall c, cr_free (Py.universal_newlines (String c s)) = true.
Proof.
  induction s as [|a s [IH1 IH2]].
  - split; [reflexivity|]. intros c. simpl.
    destruct (Ascii.eqb c Py.CR) eqn:E; [reflexivity|]. simpl. rewrite E. reflexivity.
  - split; [apply IH2|]. intros c.
    change (cr_free (if Ascii.eqb c Py.CR
                     then if Ascii.eqb a Py.LF
                          then String Py.LF (Py.universal_newlines s)
                          else String Py.LF (Py.universal_newlines (String a s))
                     else String c (Py.universal_newlines (String a s))) = true).
    destruct (Ascii.eqb c Py.CR) eqn:E.
    + destruct (Ascii.eqb a Py.LF); simpl; [exact IH1|apply IH2].
    + simpl cr_free. rewrite E. simpl. apply IH2.
Qed.

Lemma cr_free_universal_newlines s : cr_free (Py.universal_newlines s) = true.
Proof. apply cr_free_universal_newlines_step. Qed.

Lemma cr_free_push_char c ls :
  cr_free (String c "") = true -> Forall (fun l => cr_free l = true) ls ->
  Forall (fun l => cr_free l = true) (Py.push_char c ls).
Proof.
  intros Hc H. destruct H as [|l ls Hl Hls]; simpl.
  - constructor; [exact Hc|constructor].
  - constructor; [|exact Hls]. simpl in *. rewrite Hl.
    destruct (Ascii.eqb c Py.CR); [discriminate|reflexivity].
Qed.

Lemma cr_free_split_keepends s :
  cr_free s = true -> Forall (fun l => cr_free l = true) (Py.split_keepends s).
Proof.
  induction s as [|c s IH]; [constructor|]. simpl. intros H.
  apply andb_true_iff in H as [Hc Hs].
  destruct (Ascii.eqb c Py.LF).
  - constructor; [reflexivity|auto].
  - apply cr_free_push_char; [simpl; rewrite Hc; reflexivity|auto].
Qed.

Lemma cr_free_writelines ls :
  Forall (fun l => cr_free l = true) ls -> cr_free (Py.writelines ls) = true.
Proof.
  induction 1 as [|l ls Hl _ IH]; [reflexivity|].
  rewrite writelines_cons, cr_free_app, Hl, IH. reflexivity.
Qed.

Lemma lines_ok_readlines content : lines_ok (Py.readlines content).
Proof.
  split; [apply wf_lines_split_keepends|].
  apply cr_free_split_keepends, cr_free_universal_newlines.
Qed.

(** What is written and read again comes back line by line. *)
Lemma readlines_writelines ls :
  lines_ok ls -> Py.readlines (Py.writelines ls) = ls.
Proof.
  intros [Hwf Hcr]. unfold Py.readlines.
  rewrite universal_newlines_cr_free by (apply cr_free_writelines; exact Hcr).
  apply split_keepends_writelines, Hwf.
Qed.

Lemma writelines_readlines content :
  Py.writelines (Py.readlines content) = Py.universal_newlines content.
Proof. apply writelines_split_keepends. Qed.

Lemma lines_ok_drop k ls : lines_ok ls -> lines_ok (drop k ls).
Proof.
  intros [H1 H2]. split; [apply wf_lines_drop, H1|apply Forall_drop, H2].
Qed.

Lemma lines_ok_app l1 l2 :
  Forall (fun l => terminated l = true) l1 ->
  Forall (fun l => cr_free l = true) l1 ->
  lines_ok l2 -> lines_ok (l1 ++ l2).
Proof.
  intros Ht Hc [H1 H2]. split; [apply wf_lines_app; auto|].
  apply Forall_app; auto.
Qed.

(** ** Blank lines and the marker *)

Lemma all_space_lstrip s : all_space (Py.lstrip s) = all_space s.
Proof.
  induction s as [|c s IH]; [reflexivity|]. simpl.
  destruct (Py.isspace c) eqn:E; [exact IH|]. simpl. rewrite E. reflexivity.
Qed.

Lemma rstrip_empty s : Py.rstrip s = "" <-> all_space s = true.
Proof.
  induction s as [|c s IH]; [split; reflexivity|]. simpl.
  destruct (Py.rstrip s) eqn:Hr.
  - destruct (Py.isspace c); simpl.
    + split; [intros _; apply IH; reflexivity|reflexivity].
    + split; discriminate.
  - split; [discriminate|]. intros H.
    apply andb_true_iff in H as [_ H]. apply IH in H. discriminate.
Qed.

(** A line is blank exactly when it holds white space only. *)
Lemma is_blank_all_space s : is_blank s = all_space s.
Proof.
  unfold is_blank, Py.strip. rewrite <- (all_space_lstrip s).
  destruct (all_space (Py.lstrip s)) eqn:E.
  - apply rstrip_empty in E. rewrite E. reflexivity.
  - apply String.eqb_neq. intros H. apply rstrip_empty in H. congruence.
Qed.

Lemma all_space_app a b : all_space (a +:+ b) = all_space a && all_space b.
Proof.
  induction a as [|c a IH]; [reflexivity|].
  rewrite str_app_cons. simpl. rewrite IH, andb_assoc. reflexivity.
Qed.

Lemma str_in_app_l needle a b :
  Py.str_in needle b = true -> Py.str_in needle (a +:+ b) = true.
Proof.
  intros H. induction a as [|c a IH]; [exact H|].
  rewrite str_app_cons. simpl. rewrite IH. apply orb_true_r.
Qed.

(** The first line of a block carries the marker, whatever the prefix. *)
Lemma has_marker_first prefix :
  has_marker (prefix +:+ "This file is licensed under the GNU GPL v3." +:+ Py.nl) = true.
Proof. apply str_in_app_l. reflexivity. Qed.

(** The second line of a block is not blank, whatever the prefix. *)
Lemma is_blank_second prefix :
  is_blank (prefix +:+ "Copyright (C) 2026 Guanyuming He." +:+ Py.nl) = false.
Proof.
  rewrite is_blank_all_space, all_space_app.
  apply andb_false_iff. right. reflexivity.
Qed.

Lemma notice_lines_block prefix :
  map (fun line => prefix +:+ line +:+ Py.nl) (Py.splitlines NOTICE) ++ [Py.nl]
  = notice_block prefix.
Proof. reflexivity. Qed.

(** ** The loop of [remove_existing_notice] *)

Lemma subscript_nat {A} (l : list A) (i : nat) :
  Py.subscript l (Z.of_nat i) = l !! i.
Proof.
  unfold Py.subscript. destruct (Z.leb_spec 0 (Z.of_nat i)); [|lia].
  rewrite Nat2Z.id. reflexivity.
Qed.

(** From line [i] on, the loop runs without an exception and appends what
    [loop_appends] says. *)
Lemma for_each_remove_loop lines n : forall i sk out,
  (i + n = length lines)%nat ->
  exists sk',
    for_each (remove_loop_body lines) (sk, out)
      (seqZ (Z.of_nat i) (Z.of_nat n))
    = Return (sk', out ++ loop_appends sk (drop i lines)).
Proof.
  induction n as [|n IH]; intros i sk out Hn.
  - exists sk. rewrite drop_ge by lia.
    destruct sk; simpl; rewrite app_nil_r; reflexivity.
  - destruct (lookup_lt_is_Some_2 lines i ltac:(lia)) as [line Hline].
    rewrite seqZ_cons by lia.
    replace (Z.succ (Z.of_nat i)) with (Z.of_nat (S i)) by lia.
    replace (Z.pred (Z.of_nat (S n))) with (Z.of_nat n) by lia.
    rewrite (drop_S _ _ _ Hline).
    simpl for_each. rewrite subscript_nat, Hline.
    destruct sk; simpl loop_appends; unfold mbind, result_bind;
      simpl from_option.
    + unfold has_marker. destruct (Py.str_in NOTICE_MARKER line).
      * destruct (IH (S i) found_skipping out ltac:(lia)) as [sk' Hrun].
        exists sk'. cbn beta iota. rewrite Hrun. reflexivity.
      * destruct (IH (S i) actively_scan (out ++ [line]) ltac:(lia)) as [sk' Hrun].
        exists sk'. cbn beta iota. rewrite Hrun, <- app_assoc. reflexivity.
    + unfold is_blank. destruct (String.eqb (Py.strip line) "").
      * destruct (IH (S i) dont_scan out ltac:(lia)) as [sk' Hrun].
        exists sk'. cbn beta iota. rewrite Hrun. reflexivity.
      * destruct (IH (S i) found_skipping out ltac:(lia)) as [sk' Hrun].
        exists sk'. cbn beta iota. rewrite Hrun. reflexivity.
    + destruct (IH (S i) dont_scan (out ++ [line]) ltac:(lia)) as [sk' Hrun].
      exists sk'. cbn beta iota. rewrite Hrun, <- app_assoc. reflexivity.
Qed.

(** For a start that is not negative the function returns, and what it
    writes is the lines before [start] and what the loop keeps of the rest. *)
Lemma remove_existing_notice_from content (start : nat) :
  remove_existing_notice content (Z.of_nat start)
  = Return (Py.writelines
              (take start (Py.readlines content) ++
               without_first_notice (drop start (Py.readlines content)))).
Proof.
  unfold remove_existing_notice. set (lines := Py.readlines content).
  unfold Py.slice_to, Py.range.
  destruct (Z.ltb_spec (Z.of_nat start) 0); [lia|]. rewrite Nat2Z.id.
  destruct (Nat.le_gt_cases start (length lines)) as [Hle|Hgt].
  - destruct (for_each_remove_loop lines (length lines - start) start
                actively_scan (take start lines) ltac:(lia)) as [sk' Hrun].
    replace (Z.of_nat (length lines) - Z.of_nat start)
      with (Z.of_nat (length lines - start)) by lia.
    rewrite Hrun. reflexivity.
  - rewrite seqZ_nil by lia. rewrite drop_ge by lia. simpl.
    rewrite app_nil_r. reflexivity.
Qed.

Lemma after_blank_none ls :
  Forall (fun l => is_blank l = false) ls -> after_blank ls = [].
Proof.
  induction 1 as [|l ls Hl _ IH]; [reflexivity|]. simpl. rewrite Hl. exact IH.
Qed.

Lemma after_blank_at ls : forall (b : nat) line,
  ls !! b = Some line -> is_blank line = true ->
  Forall (fun l => is_blank l = false) (take b ls) ->
  after_blank ls = drop (S b) ls.
Proof.
  induction ls as [|l ls IH]; intros b line Hb Hline Hbefore; [discriminate|].
  destruct b as [|b]; simpl in *.
  - injection Hb as ->. rewrite Hline. reflexivity.
  - apply Forall_cons in Hbefore as [-> Hbefore]. eapply IH; eauto.
Qed.

Lemma without_first_notice_none ls :
  Forall (fun l => has_marker l = false) ls -> without_first_notice ls = ls.
Proof.
  induction 1 as [|l ls Hl _ IH]; [reflexivity|]. simpl. rewrite Hl, IH.
  reflexivity.
Qed.

Lemma without_first_notice_at ls : forall (m : nat) line,
  ls !! m = Some line -> has_marker line = true ->
  Forall (fun l => has_marker l = false) (take m ls) ->
  without_first_notice ls = take m ls ++ after_blank (drop (S m) ls).
Proof.
  induction ls as [|l ls IH]; intros m line Hm Hline Hbefore; [discriminate|].
  destruct m as [|m]; simpl in *.
  - injection Hm as ->. rewrite Hline. reflexivity.
  - apply Forall_cons in Hbefore as [-> Hbefore]. f_equal. eapply IH; eauto.
Qed.

(** The same with the indices of the whole file: [m] is the first line at
    or after [start] that carries the marker. *)
Lemma remove_from_first_marker (lines : list string) (start m : nat) line :
  (start <= m)%nat -> lines !! m = Some line -> has_marker line = true ->
  (forall (i : nat) l, (start <= i < m)%nat -> lines !! i = Some l ->
                       has_marker l = false) ->
  take start lines ++ without_first_notice (drop start lines)
  = take m lines ++ after_blank (drop (S m) lines).
Proof.
  intros Hsm Hm Hline Hbefore.
  rewrite (without_first_notice_at (drop start lines) (m - start) line).
  - rewrite app_assoc, take_take_drop, drop_drop.
    replace (start + (m - start))%nat with m by lia.
    replace (start + S (m - start))%nat with (S m) by lia. reflexivity.
  - rewrite lookup_drop. replace (start + (m - start))%nat with m by lia.
    exact Hm.
  - exact Hline.
  - apply Forall_lookup_2. intros i l Hi.
    apply lookup_take_Some in Hi as [Hi Hlt]. rewrite lookup_drop in Hi.
    apply (Hbefore (start + i)%nat); [lia|exact Hi].
Qed.

(** Nothing is removed when no line at or after [start] has the marker. *)
Lemma remove_from_no_marker (lines : list string) (start : nat) :
  (forall (i : nat) l, (start <= i)%nat -> lines !! i = Some l ->
                       has_marker l = false) ->
  take start lines ++ without_first_notice (drop start lines) = lines.
Proof.
  intros Hnone. rewrite without_first_notice_none; [apply take_drop|].
  apply Forall_lookup_2. intros i l Hi. rewrite lookup_drop in Hi.
  apply (Hnone (start + i)%nat); [lia|exact Hi].
Qed.

(** What the loop keeps is a part of what it read, in the same order. *)
Lemma after_blank_suffix ls : exists k : nat, after_blank ls = drop k ls.
Proof.
  induction ls as [|l ls [k IH]]; [exists 0%nat; reflexivity|]. simpl.
  destruct (is_blank l); [exists 1%nat; reflexivity|].
  exists (S k). exact IH.
Qed.

Lemma after_blank_ok ls : lines_ok ls -> lines_ok (after_blank ls).
Proof.
  intros H. destruct (after_blank_suffix ls) as [k ->].
  apply lines_ok_drop, H.
Qed.

Lemma lines_ok_tail l ls : lines_ok (l :: ls) -> lines_ok ls.
Proof. intros H. apply (lines_ok_drop 1) in H. exact H. Qed.

Lemma lines_ok_cons_inv l l' ls :
  lines_ok (l :: l' :: ls) -> terminated l = true /\ cr_free l = true.
Proof.
  intros [H1 H2]. split; [exact (wf_lines_head _ _ _ H1)|].
  apply Forall_cons in H2 as [H2 _]. exact H2.
Qed.

Lemma without_first_notice_ok ls :
  lines_ok ls -> lines_ok (without_first_notice ls).
Proof.
  induction ls as [|l ls IH]; intros H; [exact H|]. simpl.
  destruct (has_marker l).
  - apply after_blank_ok. exact (lines_ok_tail _ _ H).
  - destruct ls as [|l' ls]; [exact H|].
    destruct (lines_ok_cons_inv _ _ _ H) as [Ht Hc].
    apply (lines_ok_app [l]); [repeat constructor; exact Ht
                              |repeat constructor; exact Hc|].
    apply IH. exact (lines_ok_tail _ _ H).
Qed.

Lemma lines_ok_take_terminated (k : nat) ls :
  lines_ok ls -> (k < length ls)%nat ->
  Forall (fun l => terminated l = true) (take k ls).
Proof. intros [H _] Hk. apply wf_lines_take; assumption. Qed.

Lemma removed_lines_ok (start : nat) ls :
  lines_ok ls ->
  lines_ok (take start ls ++ without_first_notice (drop start ls)).
Proof.
  intros H. destruct (Nat.le_gt_cases (length ls) start) as [Hge|Hlt].
  - rewrite take_ge, drop_ge by lia. simpl. rewrite app_nil_r. exact H.
  - apply lines_ok_app.
    + apply lines_ok_take_terminated; assumption.
    + apply Forall_take. apply H.
    + apply without_first_notice_ok, lines_ok_drop, H.
Qed.

(** No line with the marker is left when the only such line started the
    block that was removed. *)
Lemma after_blank_Forall (P : string -> Prop) ls :
  Forall P ls -> Forall P (after_blank ls).
Proof.
  intros H. destruct (after_blank_suffix ls) as [k ->]. apply Forall_drop, H.
Qed.

(** ** The detector *)

Lemma has_file_notice_loop_S n ln unread :
  has_file_notice_loop (S n) ln unread
  = if has_marker (hd EmptyString unread) then ln
    else has_file_notice_loop n (ln + 1) (tl unread).
Proof. reflexivity. Qed.

Lemma has_file_notice_loop_cases n : forall ln unread,
  (has_file_notice_loop n ln unread = -1 /\
   Forall (fun l => has_marker l = false) (take n unread)) \/
  (exists (m : nat) line,
     (m < n)%nat /\ unread !! m = Some line /\ has_marker line = true /\
     Forall (fun l => has_marker l = false) (take m unread) /\
     has_file_notice_loop n ln unread = ln + Z.of_nat m).
Proof.
  induction n as [|n IH]; intros ln unread.
  - left. split; [reflexivity|constructor].
  - rewrite has_file_notice_loop_S. destruct unread as [|l rest].
    + simpl hd. simpl tl. change (has_marker "") with false. cbn iota.
      destruct (IH (ln + 1) []) as [[H _]|(m & line & _ & Hm & _)].
      * left. split; [exact H|constructor].
      * destruct m; discriminate.
    + simpl hd. simpl tl. destruct (has_marker l) eqn:Hl.
      * right. exists 0%nat, l. repeat split; [lia|exact Hl|constructor|lia].
      * destruct (IH (ln + 1) rest) as [[H Hall]|(m & line & Hlt & Hm & Hline & Hall & H)].
        -- left. split; [exact H|]. simpl. constructor; assumption.
        -- right. exists (S m), line.
           repeat split; [lia|exact Hm|exact Hline| |lia].
           simpl. constructor; assumption.
Qed.

(** The detector gives -1 and the first [end_] lines are free of the marker,
    or it gives the index of the first line with the marker, below [end_]. *)
Lemma has_file_notice_cases content end_ :
  (has_file_notice content end_ = -1 /\
   Forall (fun l => has_marker l = false)
          (take (Z.to_nat end_) (Py.readlines content))) \/
  (exists (m : nat) line,
     (m < Z.to_nat end_)%nat /\ Py.readlines content !! m = Some line /\
     has_marker line = true /\
     Forall (fun l => has_marker l = false) (take m (Py.readlines content)) /\
     has_file_notice content end_ = Z.of_nat m).
Proof.
  unfold has_file_notice.
  destruct (has_file_notice_loop_cases (Z.to_nat end_) 0 (Py.readlines content))
    as [H|(m & line & H1 & H2 & H3 & H4 & H5)]; [left; exact H|].
  right. exists m, line. repeat split; auto.
Qed.

Lemma first_marker_unique (ls : list string) (m m' : nat) l l' :
  ls !! m = Some l -> has_marker l = true ->
  Forall (fun x => has_marker x = false) (take m ls) ->
  ls !! m' = Some l' -> has_marker l' = true ->
  Forall (fun x => has_marker x = false) (take m' ls) ->
  m = m'.
Proof.
  intros Hm Hl Hbefore Hm' Hl' Hbefore'.
  destruct (Nat.lt_trichotomy m m') as [Hlt|[Heq|Hgt]]; [|exact Heq|].
  - assert (take m' ls !! m = Some l) as Hin
      by (rewrite lookup_take_lt by lia; exact Hm).
    apply (Forall_lookup_1 _ _ _ _ Hbefore') in Hin. congruence.
  - assert (take m ls !! m' = Some l') as Hin
      by (rewrite lookup_take_lt by lia; exact Hm').
    apply (Forall_lookup_1 _ _ _ _ Hbefore) in Hin. congruence.
Qed.

(** The detector finds the first line with the marker when the window
    reaches it. *)
Lemma has_file_notice_found content end_ (m : nat) line :
  Py.readlines content !! m = Some line -> has_marker line = true ->
  Forall (fun l => has_marker l = false) (take m (Py.readlines content)) ->
  Z.of_nat m < end_ ->
  has_file_notice content end_ = Z.of_nat m.
Proof.
  intros Hm Hline Hbefore Hend.
  destruct (has_file_notice_cases content end_)
    as [[_ Hnone]|(m' & line' & H1 & H2 & H3 & H4 & H5)].
  - assert (take (Z.to_nat end_) (Py.readlines content) !! m = Some line) as Hin
      by (rewrite lookup_take_lt by lia; exact Hm).
    apply (Forall_lookup_1 _ _ _ _ Hnone) in Hin. congruence.
  - rewrite H5. f_equal. eapply first_marker_unique; eauto.
Qed.

Lemma has_file_notice_none content end_ :
  Forall (fun l => has_marker l = false)
         (take (Z.to_nat end_) (Py.readlines content)) ->
  has_file_notice content end_ = -1.
Proof.
  intros Hnone.
  destruct (has_file_notice_cases content end_)
    as [[H _]|(m & line & H1 & H2 & H3 & H4 & H5)]; [exact H|].
  assert (take (Z.to_nat end_) (Py.readlines content) !! m = Some line) as Hin
    by (rewrite lookup_take_lt by lia; exact H2).
  apply (Forall_lookup_1 _ _ _ _ Hnone) in Hin. congruence.
Qed.

(** ** Insertion *)

Lemma slice_to_nat {A} (l : list A) (k : nat) :
  Py.slice_to l (Z.of_nat k) = take k l.
Proof.
  unfold Py.slice_to. destruct (Z.ltb_spec (Z.of_nat k) 0); [lia|].
  rewrite Nat2Z.id. reflexivity.
Qed.

Lemma slice_from_nat {A} (l : list A) (k : nat) :
  Py.slice_from l (Z.of_nat k) = drop k l.
Proof.
  unfold Py.slice_from. destruct (Z.ltb_spec (Z.of_nat k) 0); [lia|].
  rewrite Nat2Z.id. reflexivity.
Qed.

(** What [insert_notice] writes, with the clamped index as a number of
    lines. *)
Lemma insert_notice_splice content prefix insert_line :
  let lines := Py.readlines content in
  let k := Z.to_nat (Z.max 0 (Z.min insert_line (Z.of_nat (length lines)))) in
  insert_notice content prefix insert_line
  = Py.writelines (take k lines ++ notice_block prefix ++ drop k lines).
Proof.
  intros lines k. unfold insert_notice. fold lines.
  replace (Z.max 0 (Z.min insert_line (Z.of_nat (length lines))))
    with (Z.of_nat k) by (unfold k; lia).
  rewrite slice_to_nat, slice_from_nat. reflexivity.
Qed.

(** ** The per-file decision *)

Lemma comment_prefix_cases suffix :
  comment_prefix suffix = "// " \/ comment_prefix suffix = "# " \/
  comment_prefix suffix = "% ".
Proof.
  unfold comment_prefix. repeat case_bool_decide; auto.
Qed.

Lemma notice_block_terminated suffix :
  Forall (fun l => terminated l = true) (notice_block (comment_prefix suffix)).
Proof.
  destruct (comment_prefix_cases suffix) as [->|[->| ->]];
    repeat constructor.
Qed.

Lemma notice_block_cr_free suffix :
  Forall (fun l => cr_free l = true) (notice_block (comment_prefix suffix)).
Proof.
  destruct (comment_prefix_cases suffix) as [->|[->| ->]];
    repeat constructor.
Qed.

(** With one of the three prefixes the block has one line with the marker. *)
Lemma notice_block_one_marker suffix :
  filter (fun l => has_marker l = true) (notice_block (comment_prefix suffix))
  = [comment_prefix suffix +:+ "This file is licensed under the GNU GPL v3." +:+ Py.nl].
Proof.
  destruct (comment_prefix_cases suffix) as [->|[->| ->]]; reflexivity.
Qed.

Lemma canonical_line_cases suffix lines :
  canonical_line suffix lines = 0%nat \/
  (canonical_line suffix lines = 1%nat /\
   Py.lower suffix ∈ SCRIPT_EXTS /\
   exists l rest, lines = l :: rest /\ Py.startswith "#!" l = true).
Proof.
  unfold canonical_line. repeat case_bool_decide; auto.
  destruct lines as [|l rest]; [left; reflexivity|]. simpl hd.
  destruct (Py.startswith "#!" l) eqn:E; [|left; reflexivity].
  right. repeat split; eauto.
Qed.

(** The last step of [decide_notice]: the block goes to the canonical line
    of the lines the file holds then. *)
Lemma decide_notice_insert suffix content :
  (let '(prefix, insert_line) :=
     if bool_decide (Py.lower suffix ∈ C_EXTS) then ("// ", 0)
     else if bool_decide (Py.lower suffix ∈ SCRIPT_EXTS) then
       ("# ", if Py.startswith "#!" (hd EmptyString (Py.readlines content))
              then 1 else 0)
     else if bool_decide (Py.lower suffix ∈ TEX_EXTS) then ("% ", 0)
     else ("// ", 0) in
   Return (insert_notice content prefix insert_line))
  = Return (Py.writelines (with_notice suffix (Py.readlines content))).
Proof.
  assert (forall p, insert_notice content p 0
            = Py.writelines (take 0 (Py.readlines content) ++ notice_block p ++
                             drop 0 (Py.readlines content))) as Htop.
  { intros p. rewrite insert_notice_splice. cbv zeta.
    replace (Z.to_nat (Z.max 0 (Z.min 0 (Z.of_nat (length (Py.readlines content))))))
      with 0%nat by lia.
    reflexivity. }
  unfold with_notice, comment_prefix, canonical_line.
  repeat case_bool_decide; try (f_equal; apply Htop).
  destruct (Py.readlines content) as [|l rest] eqn:Hlines.
  - simpl hd. change (Py.startswith "#!" "") with false. cbn iota.
    f_equal. apply Htop.
  - simpl hd. destruct (Py.startswith "#!" l); [|f_equal; apply Htop].
    f_equal. rewrite insert_notice_splice, Hlines. cbv zeta.
    replace (Z.to_nat (Z.max 0 (Z.min 1 (Z.of_nat (length (l :: rest))))))
      with 1%nat by (simpl length; lia).
    reflexivity.
Qed.

Lemma without_first_notice_Forall (P : string -> Prop) ls :
  Forall P ls -> Forall P (without_first_notice ls).
Proof.
  induction 1 as [|l ls Hl Hls IH]; [constructor|]. simpl.
  destruct (has_marker l); [apply after_blank_Forall, Hls|].
  constructor; assumption.
Qed.

Lemma kept_lines_ok content : lines_ok (kept_lines content).
Proof.
  unfold kept_lines. destruct (_ =? -1); [apply lines_ok_readlines|].
  apply removed_lines_ok, lines_ok_readlines.
Qed.

Lemma kept_lines_Forall (P : string -> Prop) content :
  Forall P (Py.readlines content) -> Forall P (kept_lines content).
Proof.
  intros H. unfold kept_lines. destruct (_ =? -1); [exact H|].
  apply Forall_app. split; [apply Forall_take, H|].
  apply without_first_notice_Forall, Forall_drop, H.
Qed.

(** [decide_notice] always returns: it writes the kept lines with the block
    at the canonical line. *)
Lemma decide_notice_eq suffix content :
  decide_notice suffix content
  = Return (Py.writelines (with_notice suffix (kept_lines content))).
Proof.
  unfold decide_notice, kept_lines.
  destruct (has_file_notice_cases content 5)
    as [[H _]|(m & line & _ & _ & _ & _ & H)]; rewrite H.
  - simpl negb. cbn iota. unfold mbind, result_bind.
    rewrite decide_notice_insert. reflexivity.
  - replace (Z.of_nat m =? -1) with false by (symmetry; apply Z.eqb_neq; lia).
    simpl negb. cbn iota. rewrite remove_existing_notice_from.
    unfold mbind, result_bind. rewrite decide_notice_insert.
    rewrite Nat2Z.id.
    rewrite readlines_writelines
      by (apply removed_lines_ok, lines_ok_readlines).
    reflexivity.
Qed.

Lemma with_notice_ok suffix lines :
  lines_ok lines ->
  Forall (fun l => terminated l = true) (take (canonical_line suffix lines) lines) ->
  lines_ok (with_notice suffix lines).
Proof.
  intros Hok Hterm. unfold with_notice. apply lines_ok_app.
  - exact Hterm.
  - apply Forall_take, Hok.
  - apply lines_ok_app.
    + apply notice_block_terminated.
    + apply notice_block_cr_free.
    + apply lines_ok_drop, Hok.
Qed.

Lemma take_canonical_length suffix lines :
  length (take (canonical_line suffix lines) lines) = canonical_line suffix lines.
Proof.
  rewrite length_take.
  destruct (canonical_line_cases suffix lines) as [->|(-> & _ & l & rest & -> & _)];
    simpl; lia.
Qed.

(** Reading the result of [decide_notice] again finds the block at the
    canonical line and takes it away: the kept lines are those of before. *)
Lemma kept_lines_with_notice suffix lines :
  lines_ok lines ->
  Forall (fun l => terminated l = true /\ has_marker l = false)
         (take (canonical_line suffix lines) lines) ->
  kept_lines (Py.writelines (with_notice suffix lines)) = lines.
Proof.
  intros Hok Hhead.
  assert (Forall (fun l => terminated l = true)
            (take (canonical_line suffix lines) lines)) as Hterm
    by (eapply Forall_impl; [exact Hhead|]; intros l [H _]; exact H).
  assert (Forall (fun l => has_marker l = false)
            (take (canonical_line suffix lines) lines)) as Hplain
    by (eapply Forall_impl; [exact Hhead|]; intros l [_ H]; exact H).
  pose proof (with_notice_ok suffix lines Hok Hterm) as Hok'.
  pose proof (take_canonical_length suffix lines) as Hlen.
  set (k := canonical_line suffix lines) in *.
  set (first := comment_prefix suffix +:+
                "This file is licensed under the GNU GPL v3." +:+ Py.nl).
  assert (has_file_notice (Py.writelines (with_notice suffix lines)) 5
          = Z.of_nat k) as Hold.
  { apply (has_file_notice_found _ _ _ first).
    - rewrite readlines_writelines by exact Hok'. unfold with_notice. fold k.
      rewrite lookup_app_r by lia. rewrite Hlen, Nat.sub_diag. reflexivity.
    - apply has_marker_first.
    - rewrite readlines_writelines by exact Hok'. unfold with_notice. fold k.
      rewrite take_app_le by lia. rewrite take_take, Nat.min_id. exact Hplain.
    - destruct (canonical_line_cases suffix lines) as [H|[H _]];
        fold k in H; lia. }
  unfold kept_lines. rewrite Hold.
  replace (Z.of_nat k =? -1) with false by (symmetry; apply Z.eqb_neq; lia).
  rewrite Nat2Z.id, readlines_writelines by exact Hok'.
  unfold with_notice. fold k.
  rewrite take_app_le by lia. rewrite take_take, Nat.min_id.
  rewrite drop_app_ge by lia. rewrite Hlen, Nat.sub_diag, drop_0.
  change (notice_block (comment_prefix suffix) ++ drop k lines)
    with (first :: (comment_prefix suffix +:+ "Copyright (C) 2026 Guanyuming He." +:+ Py.nl)
                :: Py.nl :: drop k lines).
  simpl without_first_notice. unfold first. rewrite has_marker_first.
  rewrite is_blank_second. change (is_blank Py.nl) with true. cbn iota.
  apply take_drop.
Qed.

(** The number of lines with the marker goes up by one. *)
Lemma with_notice_count suffix lines :
  length (filter (fun l => has_marker l = true) (with_notice suffix lines))
  = S (length (filter (fun l => has_marker l = true) lines)).
Proof.
  unfold with_notice. set (k := canonical_line suffix lines).
  assert (length (filter (fun l => has_marker l = true) lines)
          = (length (filter (fun l => has_marker l = true) (take k lines)) +
             length (filter (fun l => has_marker l = true) (drop k lines)))%nat)
    as -> by (rewrite <- length_app, <- filter_app, take_drop; reflexivity).
  rewrite !filter_app, !length_app, notice_block_one_marker. simpl. lia.
Qed.

Lemma filter_none_length (ls : list string) :
  Forall (fun l => has_marker l = false) ls ->
  length (filter (fun l => has_marker l = true) ls) = 0%nat.
Proof.
  induction 1 as [|l ls Hl _ IH]; [reflexivity|].
  rewrite filter_cons_False by congruence. exact IH.
Qed.

Lemma notice_block_terminated_prefix prefix :
  lf_free prefix = true ->
  Forall (fun l => terminated l = true) (notice_block prefix).
Proof.
  intros H. unfold notice_block.
  repeat constructor; rewrite <- str_app_assoc, terminated_app_nl, lf_free_app, H;
    reflexivity.
Qed.

Lemma notice_block_cr_free_prefix prefix :
  cr_free prefix = true ->
  Forall (fun l => cr_free l = true) (notice_block prefix).
Proof.
  intros H. unfold notice_block.
  repeat constructor; rewrite cr_free_app, H; reflexivity.
Qed.

(** The remover, started on a block, drops the block and nothing else. *)
Lemma without_first_notice_block prefix rest :
  without_first_notice (notice_block prefix ++ rest) = rest.
Proof.
  unfold notice_block. simpl.
  rewrite has_marker_first, is_blank_second. reflexivity.
Qed.

Lemma notice_block_lookup_0 prefix rest :
  (notice_block prefix ++ rest) !! 0%nat
  = Some (prefix +:+ "This file is licensed under the GNU GPL v3." +:+ Py.nl).
Proof. reflexivity. Qed.

(** When the suffix is a script suffix and the shebang lines of the file are
    plain, the lines before the canonical line are plain too. *)
Lemma canonical_head (P : string -> Prop) suffix content :
  (Py.lower suffix ∈ SCRIPT_EXTS ->
   Forall (fun l => Py.startswith "#!" l = true -> P l) (Py.readlines content)) ->
  Forall P (take (canonical_line suffix (kept_lines content)) (kept_lines content)).
Proof.
  intros H.
  destruct (canonical_line_cases suffix (kept_lines content))
    as [->|(-> & Hscript & l & rest & Hkept & Hl)]; [constructor|].
  pose proof (kept_lines_Forall _ content (H Hscript)) as Hall.
  rewrite Hkept in *. simpl. constructor; [|constructor].
  apply Forall_cons in Hall as [Hall _]. exact (Hall Hl).
Qed.

(** Nothing with the marker is kept when the detected line is the only one
    that has it. *)
Lemma kept_lines_unmarked content :
  marker_only_where_detected content ->
  Forall (fun l => has_marker l = false) (kept_lines content).
Proof.
  intros Honly. unfold kept_lines.
  destruct (has_file_notice_cases content 5)
    as [[H _]|(m & line & _ & Hm & Hline & Hbefore & H)]; rewrite H.
  - rewrite Z.eqb_refl. apply Forall_lookup_2. intros i l Hi.
    destruct (has_marker l) eqn:E; [|reflexivity].
    pose proof (Honly i l Hi E). lia.
  - replace (Z.of_nat m =? -1) with false by (symmetry; apply Z.eqb_neq; lia).
    rewrite Nat2Z.id.
    rewrite (remove_from_first_marker _ m m line) by (auto; intros; lia).
    apply Forall_app. split; [exact Hbefore|].
    apply after_blank_Forall, Forall_lookup_2. intros i l Hi.
    rewrite lookup_drop in Hi.
    destruct (has_marker l) eqn:E; [|reflexivity].
    pose proof (Honly _ l Hi E). lia.
Qed.

Lemma notice_count_with_notice suffix lines :
  lines_ok lines ->
  Forall (fun l => terminated l = true) (take (canonical_line suffix lines) lines) ->
  notice_count (Py.writelines (with_notice suffix lines))
  = S (length (filter (fun l => has_marker l = true) lines)).
Proof.
  intros Hok Hterm. unfold notice_count.
  rewrite readlines_writelines by (apply with_notice_ok; assumption).
  apply with_notice_count.
Qed.

(** * The claims of the specification *)

(** ** Insertion *)

(** C8.  For every content (read as a list of [N] lines), every prefix and
    every integer [insert_line], [insert_notice] writes the original lines
    with a block spliced in just before index
    [min (max insert_line 0) N]; the block is every line of the notice text
    with the prefix in front and a line end behind, followed by exactly one
    blank line; the original lines are all there, in their order. *)
Theorem insert_notice_shape content prefix insert_line :
  let lines := Py.readlines content in
  let k := Z.to_nat (Z.min (Z.max insert_line 0) (Z.of_nat (length lines))) in
  insert_notice content prefix insert_line
  = Py.writelines
      (take k lines ++
       map (fun line => prefix +:+ line +:+ Py.nl) (Py.splitlines NOTICE) ++
       [Py.nl] ++
       drop k lines) /\
  Py.splitlines NOTICE
  = ["This file is licensed under the GNU GPL v3.";
     "Copyright (C) 2026 Guanyuming He."] /\
  take k lines ++ drop k lines = lines.
Proof.
  intros lines k. split; [|split; [reflexivity|apply take_drop]].
  rewrite insert_notice_splice. fold lines.
  replace (Z.to_nat (Z.max 0 (Z.min insert_line (Z.of_nat (length lines)))))
    with k by (unfold k; lia).
  reflexivity.
Qed.

(** ** The git guards *)

(** C9, as the code has it.  When the git command fails by exiting with a
    status other than 0 ([CalledProcessError]), [is_git_work_tree] returns
    false and [git_work_tree_clean] returns false; neither raises. *)
Theorem git_guards_fail_safe (git : process_outcome) :
  subprocess_run git = Raise CalledProcessError ->
  is_git_work_tree git = Return false /\
  git_work_tree_clean git = Return false.
Proof.
  intros H. unfold is_git_work_tree, git_work_tree_clean. rewrite H.
  split; reflexivity.
Qed.

Lemma git_guards_fail_safe_witness :
  is_git_work_tree (Exited 128 "fatal: not a git repository") = Return false /\
  git_work_tree_clean (Exited 128 "fatal: not a git repository") = Return false.
Proof. apply git_guards_fail_safe. reflexivity. Defined.

(** C9 as the specification states it fails: a git command that cannot be
    started is a failed query, and both guards raise. *)
Lemma git_guards_raise_when_git_missing :
  is_git_work_tree NotStarted = Raise OSError /\
  git_work_tree_clean NotStarted = Raise OSError.
Proof. split; reflexivity. Qed.

(** ** Removal *)

(** C10.  When a line at or after [start] carries the marker ([m] is the
    first such line) and no line after it is blank, [remove_existing_notice]
    removes every line from the marker line to the end of the file: what is
    left is the lines before [m]. *)
Theorem remove_existing_notice_no_blank content (start m : nat) line :
  (start <= m)%nat ->
  Py.readlines content !! m = Some line -> has_marker line = true ->
  (forall (i : nat) l, (start <= i < m)%nat ->
     Py.readlines content !! i = Some l -> has_marker l = false) ->
  (forall (j : nat) l, (m < j)%nat ->
     Py.readlines content !! j = Some l -> is_blank l = false) ->
  remove_existing_notice content (Z.of_nat start)
  = Return (Py.writelines (take m (Py.readlines content))).
Proof.
  intros Hsm Hm Hline Hbefore Hnoblank.
  rewrite remove_existing_notice_from.
  rewrite (remove_from_first_marker _ start m line) by assumption.
  rewrite after_blank_none; [rewrite app_nil_r; reflexivity|].
  apply Forall_lookup_2. intros j l Hj. rewrite lookup_drop in Hj.
  apply (Hnoblank (S m + j)%nat); [lia|exact Hj].
Qed.

Lemma remove_existing_notice_no_blank_witness :
  let content :=
    "int x;" +:+ Py.nl +:+
    "// This file is licensed under the GNU GPL v3." +:+ Py.nl +:+
    "int y;" +:+ Py.nl +:+ "int z;" in
  remove_existing_notice content 0 = Return ("int x;" +:+ Py.nl).
Proof.
  intros content.
  refine (remove_existing_notice_no_blank content 0 1
            ("// This file is licensed under the GNU GPL v3." +:+ Py.nl)
            _ _ _ _ _).
  - lia.
  - reflexivity.
  - reflexivity.
  - intros i l Hi. assert (i = 0%nat) as -> by lia.
    intros [= <-]. reflexivity.
  - intros j l Hj. destruct j as [|[|[|[|j]]]]; try lia;
      intros [= <-]; reflexivity.
Defined.

(** C7 as the specification words it fails: a line between [start_index]
    and the marker line is copied, not dropped. *)
Lemma remove_existing_notice_keeps_lines_before_marker :
  let content :=
    "a" +:+ Py.nl +:+
    "// This file is licensed under the GNU GPL v3." +:+ Py.nl +:+
    Py.nl +:+ "b" +:+ Py.nl in
  remove_existing_notice content 0 = Return ("a" +:+ Py.nl +:+ "b" +:+ Py.nl) /\
  Py.writelines (removal_as_worded (Py.readlines content) 0) = "b" +:+ Py.nl /\
  remove_existing_notice content 0
  <> Return (Py.writelines (removal_as_worded (Py.readlines content) 0)).
Proof. vm_compute. repeat split. discriminate. Qed.

(** C7, as the code has it.  For every content and every start index
    (not negative) [remove_existing_notice] returns.  With [m] the first line
    at or after [start] that carries the marker, it copies every line before
    [m] (those before [start] and those from [start] on alike), drops the
    lines from [m] up to and including the first blank line [b] after [m],
    and copies every line after [b], with or without the marker.  Without a
    blank line after [m] it drops everything from [m] on; without a marker
    line at or after [start] it copies everything. *)
Theorem remove_existing_notice_spec content (start : nat) :
  let lines := Py.readlines content in
  exists out,
    remove_existing_notice content (Z.of_nat start) = Return (Py.writelines out) /\
    ((forall (i : nat) l, (start <= i)%nat -> lines !! i = Some l ->
        has_marker l = false) ->
     out = lines) /\
    (forall (m : nat) line,
       (start <= m)%nat -> lines !! m = Some line -> has_marker line = true ->
       (forall (i : nat) l, (start <= i < m)%nat -> lines !! i = Some l ->
          has_marker l = false) ->
       (forall (b : nat) blank,
          (m < b)%nat -> lines !! b = Some blank -> is_blank blank = true ->
          (forall (j : nat) l, (m < j < b)%nat -> lines !! j = Some l ->
             is_blank l = false) ->
          out = take m lines ++ drop (S b) lines) /\
       ((forall (j : nat) l, (m < j)%nat -> lines !! j = Some l ->
           is_blank l = false) ->
        out = take m lines)).
Proof.
  intros lines.
  exists (take start lines ++ without_first_notice (drop start lines)).
  split; [apply remove_existing_notice_from|]. split.
  - apply remove_from_no_marker.
  - intros m line Hsm Hm Hline Hbefore.
    rewrite (remove_from_first_marker _ start m line) by assumption. split.
    + intros b blank Hmb Hb Hblank Hbetween. f_equal.
      rewrite (after_blank_at (drop (S m) lines) (b - S m) blank).
      * rewrite drop_drop. f_equal. lia.
      * rewrite lookup_drop. rewrite <- Hb. f_equal. lia.
      * exact Hblank.
      * apply Forall_lookup_2. intros j l Hj.
        apply lookup_take_Some in Hj as [Hj Hlt]. rewrite lookup_drop in Hj.
        apply (Hbetween (S m + j)%nat); [lia|exact Hj].
    + intros Hnoblank. rewrite after_blank_none; [apply app_nil_r|].
      apply Forall_lookup_2. intros j l Hj. rewrite lookup_drop in Hj.
      apply (Hnoblank (S m + j)%nat); [lia|exact Hj].
Qed.

Lemma remove_existing_notice_spec_witness :
  let content :=
    "x" +:+ Py.nl +:+
    "# This file is licensed under the GNU GPL v3." +:+ Py.nl +:+
    "# Copyright (C) 2026 Guanyuming He." +:+ Py.nl +:+
    Py.nl +:+
    "y" +:+ Py.nl +:+
    "# This file is licensed under the GNU GPL v3, too." +:+ Py.nl in
  remove_existing_notice content 0
  = Return ("x" +:+ Py.nl +:+ "y" +:+ Py.nl +:+
            "# This file is licensed under the GNU GPL v3, too." +:+ Py.nl).
Proof.
  intros content.
  destruct (remove_existing_notice_spec content 0) as (out & Hrun & _ & Hcase).
  destruct (Hcase 1%nat ("# This file is licensed under the GNU GPL v3." +:+ Py.nl))
    as [Hblank _].
  - lia.
  - reflexivity.
  - reflexivity.
  - intros i l Hi. assert (i = 0%nat) as -> by lia. intros [= <-]. reflexivity.
  - change (Z.of_nat 0) with 0 in Hrun. rewrite Hrun. rewrite (Hblank 3%nat Py.nl).
    + reflexivity.
    + lia.
    + reflexivity.
    + reflexivity.
    + intros j l Hj. assert (j = 2%nat) as -> by lia. intros [= <-]. reflexivity.
Defined.

(** ** The per-file decision: dispatch on the extension *)

(** The arguments of the call of [insert_notice].  For a file in which the
    detector finds no notice, the classification goes by the lower-cased
    suffix: [.py] with a first line that starts with
    [#!] has the notice inserted at line 1 with the prefix ["# "], [.cpp] at
    line 0 with ["// "], [.tex] at line 0 with ["% "], and a suffix in none
    of the three sets at line 0 with ["// "]. *)
Theorem decide_notice_dispatch suffix content :
  has_file_notice content 5 = -1 ->
  (Py.lower suffix = ".py" ->
   Py.startswith "#!" (hd EmptyString (Py.readlines content)) = true ->
   decide_notice suffix content = Return (insert_notice content "# " 1)) /\
  (Py.lower suffix = ".cpp" ->
   decide_notice suffix content = Return (insert_notice content "// " 0)) /\
  (Py.lower suffix = ".tex" ->
   decide_notice suffix content = Return (insert_notice content "% " 0)) /\
  (Py.lower suffix ∉ C_EXTS -> Py.lower suffix ∉ SCRIPT_EXTS ->
   Py.lower suffix ∉ TEX_EXTS ->
   decide_notice suffix content = Return (insert_notice content "// " 0)).
Proof.
  intros Hnone. unfold decide_notice. rewrite Hnone. simpl negb. cbn iota.
  unfold mbind, result_bind. cbv zeta. repeat split.
  - intros -> ->. repeat case_bool_decide; try reflexivity; ext_absurd.
  - intros ->. repeat case_bool_decide; try reflexivity; ext_absurd.
  - intros ->. repeat case_bool_decide; try reflexivity; ext_absurd.
  - intros H1 H2 H3. rewrite !bool_decide_eq_false_2 by assumption. reflexivity.
Qed.

Lemma decide_notice_dispatch_witness :
  decide_notice ".PY" ("#!/usr/bin/env python3" +:+ Py.nl +:+ "print(1)" +:+ Py.nl)
  = Return (insert_notice
              ("#!/usr/bin/env python3" +:+ Py.nl +:+ "print(1)" +:+ Py.nl)
              "# " 1) /\
  decide_notice ".cpp" ("int x;" +:+ Py.nl)
  = Return (insert_notice ("int x;" +:+ Py.nl) "// " 0) /\
  decide_notice ".Tex" ("\section{A}" +:+ Py.nl)
  = Return (insert_notice ("\section{A}" +:+ Py.nl) "% " 0) /\
  decide_notice ".unknownext" ("data" +:+ Py.nl)
  = Return (insert_notice ("data" +:+ Py.nl) "// " 0).
Proof.
  split; [|split; [|split]].
  - destruct (decide_notice_dispatch ".PY"
                ("#!/usr/bin/env python3" +:+ Py.nl +:+ "print(1)" +:+ Py.nl)
                ltac:(reflexivity)) as (H & _).
    apply H; reflexivity.
  - destruct (decide_notice_dispatch ".cpp" ("int x;" +:+ Py.nl)
                ltac:(reflexivity)) as (_ & H & _).
    apply H; reflexivity.
  - destruct (decide_notice_dispatch ".Tex" ("\section{A}" +:+ Py.nl)
                ltac:(reflexivity)) as (_ & _ & H & _).
    apply H; reflexivity.
  - destruct (decide_notice_dispatch ".unknownext" ("data" +:+ Py.nl)
                ltac:(reflexivity)) as (_ & _ & _ & H).
    apply H; intros Hin; ext_absurd.
Defined.

(** ** The guard of [main] *)

(** C6.  When [git status --porcelain] reports anything, a call with path
    arguments (at least one, none of them the option [--help]) leaves every
    file as it is and the process ends with a status other than 0. *)
Theorem main_refuses_dirty_tree
    (is_absolute : string -> bool) (joinpath : string -> string -> string)
    (path_suffix : string -> string) (is_dir : string -> bool)
    (rglob : string -> list string) (access_rw : string -> bool)
    (args : list string) (git : git_queries) (fs : gmap string string)
    (reported : string) :
  args <> [] -> "--help" ∉ args ->
  status_porcelain git = Exited 0 reported -> Py.strip reported <> "" ->
  exists r,
    main is_absolute joinpath path_suffix is_dir rglob access_rw args git fs
    = (r, fs) /\
    exit_status r <> 0.
Proof.
  intros Hargs Hhelp Hstatus Hdirty. unfold main.
  rewrite bool_decide_eq_false_2 by exact Hhelp.
  destruct args as [|p rest]; [congruence|]. simpl orb. cbn iota.
  assert (git_work_tree_clean (status_porcelain git) = Return false) as ->.
  { rewrite Hstatus. unfold git_work_tree_clean. simpl.
    apply String.eqb_neq in Hdirty. rewrite Hdirty. reflexivity. }
  unfold is_git_work_tree, git_root.
  destruct (rev_parse_is_inside_work_tree git) as [[| |] stdout|];
    simpl subprocess_run; cbn iota;
    try (eexists; split; [reflexivity|discriminate]).
  destruct (String.eqb (Py.strip stdout) "true");
    [|eexists; split; [reflexivity|discriminate]].
  destruct (rev_parse_show_toplevel git) as [[| |] stdout'|];
    simpl subprocess_run; cbn iota;
    eexists; (split; [reflexivity|discriminate]).
Qed.

Lemma main_refuses_dirty_tree_witness :
  let git := {| rev_parse_is_inside_work_tree := Exited 0 ("true" +:+ Py.nl);
                rev_parse_show_toplevel := Exited 0 ("/repo" +:+ Py.nl);
                status_porcelain := Exited 0 (" M src/a.c" +:+ Py.nl) |} in
  let fs : gmap string string := {[ "/repo/src/a.c" := "int x;" +:+ Py.nl ]} in
  exists r,
    main (Py.startswith "/") (fun root p => root +:+ "/" +:+ p)
         (fun _ => ".c") (fun p => String.eqb p "/repo/src")
         (fun _ => ["/repo/src/a.c"]) (fun _ => true)
         ["src"] git fs
    = (r, fs) /\
    exit_status r <> 0.
Proof.
  intros git fs.
  apply (main_refuses_dirty_tree _ _ _ _ _ _ ["src"] git fs
           (" M src/a.c" +:+ Py.nl)).
  - discriminate.
  - intros H. apply list_elem_of_In in H. simpl in H.
    destruct H as [H|[]]. discriminate.
  - reflexivity.
  - vm_compute. discriminate.
Defined.

(** ** The per-file decision: one block, and running twice *)

(** C1 as the specification states it fails.  A block that starts on line 5
    is outside the window of the detector: both runs leave it, and the file
    has two blocks.  On a script that is one shebang line without a line
    end, the first run glues the notice to the shebang and the second run
    takes the shebang away with the notice: the two runs differ. *)
Lemma decide_notice_twice_differs :
  let far :=
    "1" +:+ Py.nl +:+ "2" +:+ Py.nl +:+ "3" +:+ Py.nl +:+ "4" +:+ Py.nl +:+
    "5" +:+ Py.nl +:+
    "// This file is licensed under the GNU GPL v3." +:+ Py.nl +:+
    "// Copyright (C) 2026 Guanyuming He." +:+ Py.nl +:+ Py.nl in
  let far_once :=
    "// This file is licensed under the GNU GPL v3." +:+ Py.nl +:+
    "// Copyright (C) 2026 Guanyuming He." +:+ Py.nl +:+ Py.nl +:+ far in
  let once :=
    "#!/bin/sh# This file is licensed under the GNU GPL v3." +:+ Py.nl +:+
    "# Copyright (C) 2026 Guanyuming He." +:+ Py.nl +:+ Py.nl in
  let twice :=
    "# This file is licensed under the GNU GPL v3." +:+ Py.nl +:+
    "# Copyright (C) 2026 Guanyuming He." +:+ Py.nl +:+ Py.nl in
  (decide_notice ".c" far = Return far_once /\
   decide_notice ".c" far_once = Return far_once /\
   notice_count far_once = 2%nat) /\
  (decide_notice ".sh" "#!/bin/sh" = Return once /\
   decide_notice ".sh" once = Return twice /\
   once <> twice).
Proof.
  vm_compute.
  split; [split; [reflexivity|split; reflexivity]|].
  split; [reflexivity|split; [reflexivity|discriminate]].
Qed.

(** C1, as the code has it.  When, for a script suffix, every line of the
    file that starts with [#!] ends with its line end and is free of the
    marker, [decide_notice] returns and a second run on its result returns
    the same content.  When moreover the only line with the marker, if there
    is one, is the line the detector reports, the result has exactly one
    notice block. *)
Theorem decide_notice_idempotent suffix content :
  (Py.lower suffix ∈ SCRIPT_EXTS ->
   shebang_lines_terminated content /\ shebang_lines_unmarked content) ->
  exists once,
    decide_notice suffix content = Return once /\
    decide_notice suffix once = Return once /\
    (marker_only_where_detected content -> notice_count once = 1%nat).
Proof.
  intros Hshebang.
  assert (Forall (fun l => terminated l = true)
            (take (canonical_line suffix (kept_lines content))
                  (kept_lines content))) as Hterm.
  { apply canonical_head. intros H. apply Hshebang, H. }
  assert (Forall (fun l => has_marker l = false)
            (take (canonical_line suffix (kept_lines content))
                  (kept_lines content))) as Hplain.
  { apply canonical_head. intros H. apply Hshebang, H. }
  exists (Py.writelines (with_notice suffix (kept_lines content))).
  split; [apply decide_notice_eq|]. split.
  - rewrite decide_notice_eq, kept_lines_with_notice; [reflexivity| |].
    + apply kept_lines_ok.
    + apply Forall_and. split; assumption.
  - intros Honly.
    rewrite notice_count_with_notice by (auto using kept_lines_ok).
    rewrite filter_none_length by (apply kept_lines_unmarked, Honly).
    reflexivity.
Qed.

Lemma decide_notice_idempotent_witness :
  let content :=
    "#!/usr/bin/env python3" +:+ Py.nl +:+
    "# This file is licensed under the GNU GPL v3." +:+ Py.nl +:+
    "# Copyright (C) 2020 Somebody Else." +:+ Py.nl +:+
    Py.nl +:+
    "import os" +:+ Py.nl in
  exists once,
    decide_notice ".py" content = Return once /\
    decide_notice ".py" once = Return once /\
    notice_count once = 1%nat.
Proof.
  intros content.
  destruct (decide_notice_idempotent ".py" content) as (once & H1 & H2 & H3).
  - intros _. split; repeat constructor; discriminate.
  - exists once. split; [exact H1|]. split; [exact H2|]. apply H3.
    intros i l. destruct i as [|[|[|[|[|i]]]]]; intros [= <-];
      first [discriminate|reflexivity].
Defined.

(** C3 as the specification states it fails: a block that starts on line 5
    is outside the window of the detector and stays; the file then has two. *)
Lemma decide_notice_leaves_far_block :
  let content :=
    "1" +:+ Py.nl +:+ "2" +:+ Py.nl +:+ "3" +:+ Py.nl +:+ "4" +:+ Py.nl +:+
    "5" +:+ Py.nl +:+
    "// This file is licensed under the GNU GPL v3." +:+ Py.nl +:+
    "// Copyright (C) 2026 Guanyuming He." +:+ Py.nl +:+ Py.nl in
  decide_notice ".c" content
  = Return ("// This file is licensed under the GNU GPL v3." +:+ Py.nl +:+
            "// Copyright (C) 2026 Guanyuming He." +:+ Py.nl +:+ Py.nl +:+
            content) /\
  notice_count ("// This file is licensed under the GNU GPL v3." +:+ Py.nl +:+
                "// Copyright (C) 2026 Guanyuming He." +:+ Py.nl +:+ Py.nl +:+
                content) = 2%nat.
Proof. vm_compute. split; reflexivity. Qed.

(** C3, as the code has it.  When the only line with the marker, if there is
    one, is the line the detector reports (so it is among the first five
    lines), and, for a script suffix, every line that starts with [#!] ends
    with its line end, then after [decide_notice] the file is its lines
    without the old notice, [rest], with the block for its suffix at the
    canonical line: line 1 behind a shebang line of a script, line 0
    otherwise.  It has exactly one notice block.  [rest] is every line of
    the file when the detector found nothing, and else the lines before the
    detected line [m] and those behind the first blank line after [m]. *)
Theorem decide_notice_one_block suffix content :
  marker_only_where_detected content ->
  (Py.lower suffix ∈ SCRIPT_EXTS -> shebang_lines_terminated content) ->
  exists result rest,
    decide_notice suffix content = Return result /\
    Forall (fun l => has_marker l = false) rest /\
    Py.readlines result
    = take (canonical_line suffix rest) rest ++
      notice_block (comment_prefix suffix) ++
      drop (canonical_line suffix rest) rest /\
    notice_count result = 1%nat /\
    (has_file_notice content 5 = -1 -> rest = Py.readlines content) /\
    (forall m : nat, has_file_notice content 5 = Z.of_nat m ->
       rest = take m (Py.readlines content) ++
              after_blank (drop (S m) (Py.readlines content))).
Proof.
  intros Honly Hshebang.
  assert (Forall (fun l => terminated l = true)
            (take (canonical_line suffix (kept_lines content))
                  (kept_lines content))) as Hterm
    by (apply canonical_head; exact Hshebang).
  pose proof (kept_lines_unmarked content Honly) as Hplain.
  exists (Py.writelines (with_notice suffix (kept_lines content))),
         (kept_lines content).
  split; [apply decide_notice_eq|]. split; [exact Hplain|]. split.
  { apply readlines_writelines, with_notice_ok; [apply kept_lines_ok|exact Hterm]. }
  split.
  { rewrite notice_count_with_notice by (auto using kept_lines_ok).
    rewrite filter_none_length by exact Hplain. reflexivity. }
  split.
  - intros Hnone. unfold kept_lines. rewrite Hnone. reflexivity.
  - intros m Hm. unfold kept_lines. rewrite Hm.
    replace (Z.of_nat m =? -1) with false by (symmetry; apply Z.eqb_neq; lia).
    rewrite Nat2Z.id.
    destruct (has_file_notice_cases content 5)
      as [[H _]|(m' & line & _ & Hline & Hmarker & _ & H)]; [lia|].
    assert (m' = m) as -> by lia.
    apply (remove_from_first_marker _ m m line); auto. intros; lia.
Qed.

Lemma decide_notice_one_block_witness :
  let content :=
    "#!/bin/sh" +:+ Py.nl +:+
    "echo hello" +:+ Py.nl +:+
    "# This file is licensed under the GNU GPL v3." +:+ Py.nl +:+
    "# Copyright (C) 2020 Somebody Else." +:+ Py.nl +:+
    Py.nl +:+
    "exit 0" +:+ Py.nl in
  exists result rest,
    decide_notice ".sh" content = Return result /\
    Forall (fun l => has_marker l = false) rest /\
    Py.readlines result
    = take (canonical_line ".sh" rest) rest ++
      notice_block (comment_prefix ".sh") ++
      drop (canonical_line ".sh" rest) rest /\
    notice_count result = 1%nat /\
    (has_file_notice content 5 = -1 -> rest = Py.readlines content) /\
    (forall m : nat, has_file_notice content 5 = Z.of_nat m ->
       rest = take m (Py.readlines content) ++
              after_blank (drop (S m) (Py.readlines content))).
Proof.
  intros content. apply (decide_notice_one_block ".sh" content).
  - intros i l. destruct i as [|[|[|[|[|[|i]]]]]]; intros [= <-];
      first [discriminate|reflexivity].
  - intros _. repeat constructor; discriminate.
Defined.

(** ** The window of the detector *)

(** C4.  When the first line with the marker is line 5 or later,
    [has_file_notice] with the window of 5 lines returns -1 and
    [decide_notice] inserts a block without taking the old one away: the
    result is all lines of the file with a new block at the canonical line,
    one notice block more than before, so two at least. *)
Theorem marker_beyond_window suffix content (i : nat) line :
  (5 <= i)%nat ->
  Py.readlines content !! i = Some line -> has_marker line = true ->
  (forall (j : nat) l, (j < i)%nat ->
     Py.readlines content !! j = Some l -> has_marker l = false) ->
  has_file_notice content 5 = -1 /\
  exists result,
    decide_notice suffix content = Return result /\
    Py.readlines result
    = take (canonical_line suffix (Py.readlines content)) (Py.readlines content) ++
      notice_block (comment_prefix suffix) ++
      drop (canonical_line suffix (Py.readlines content)) (Py.readlines content) /\
    notice_count result = S (notice_count content) /\
    (2 <= notice_count result)%nat.
Proof.
  intros Hi Hline Hmarker Hbefore.
  assert (has_file_notice content 5 = -1) as Hnone.
  { apply has_file_notice_none, Forall_lookup_2. intros j l Hj.
    apply lookup_take_Some in Hj as [Hj Hlt].
    apply (Hbefore j); [lia|exact Hj]. }
  split; [exact Hnone|].
  assert (kept_lines content = Py.readlines content) as Hkept
    by (unfold kept_lines; rewrite Hnone; reflexivity).
  assert (Forall (fun l => terminated l = true)
            (take (canonical_line suffix (Py.readlines content))
                  (Py.readlines content))) as Hterm.
  { apply lines_ok_take_terminated; [apply lines_ok_readlines|].
    apply lookup_lt_Some in Hline.
    destruct (canonical_line_cases suffix (Py.readlines content)) as [->|[-> _]];
      lia. }
  assert (notice_count (Py.writelines (with_notice suffix (Py.readlines content)))
          = S (notice_count content)) as Hcount
    by (apply notice_count_with_notice; [apply lines_ok_readlines|exact Hterm]).
  exists (Py.writelines (with_notice suffix (Py.readlines content))).
  split; [rewrite decide_notice_eq, Hkept; reflexivity|]. split.
  - apply readlines_writelines, with_notice_ok;
      [apply lines_ok_readlines|exact Hterm].
  - split; [exact Hcount|]. rewrite Hcount. unfold notice_count.
    apply list_elem_of_lookup_2 in Hline.
    assert (line ∈ filter (fun l => has_marker l = true) (Py.readlines content))
      as Hin by (apply list_elem_of_filter; split; assumption).
    destruct (filter _ (Py.readlines content)); [inversion Hin|simpl; lia].
Qed.

Lemma marker_beyond_window_witness :
  let content :=
    "1" +:+ Py.nl +:+ "2" +:+ Py.nl +:+ "3" +:+ Py.nl +:+ "4" +:+ Py.nl +:+
    "5" +:+ Py.nl +:+
    "// This file is licensed under the GNU GPL v3." +:+ Py.nl +:+
    "// Copyright (C) 2026 Guanyuming He." +:+ Py.nl +:+ Py.nl in
  has_file_notice content 5 = -1 /\
  exists result,
    decide_notice ".c" content = Return result /\
    Py.readlines result
    = take (canonical_line ".c" (Py.readlines content)) (Py.readlines content) ++
      notice_block (comment_prefix ".c") ++
      drop (canonical_line ".c" (Py.readlines content)) (Py.readlines content) /\
    notice_count result = S (notice_count content) /\
    (2 <= notice_count result)%nat.
Proof.
  intros content.
  apply (marker_beyond_window ".c" content 5
           ("// This file is licensed under the GNU GPL v3." +:+ Py.nl)).
  - lia.
  - reflexivity.
  - reflexivity.
  - intros j l Hj. destruct j as [|[|[|[|[|j]]]]]; try lia;
      intros [= <-]; reflexivity.
Defined.

(** ** Inserting and removing *)

(** C2 as the specification states it fails.  Behind a last line without a
    line end the notice is glued to that line, and no removal brings the
    file back, neither at the line that now carries the marker nor at the
    line of the insertion.  A file with CR LF line ends comes back with LF
    line ends. *)
Lemma insert_then_remove_differs :
  let inserted := insert_notice "x = 1" "# " 1 in
  let dos := "x = 1" +:+ String Py.CR Py.nl in
  (inserted
   = "x = 1# This file is licensed under the GNU GPL v3." +:+ Py.nl +:+
     "# Copyright (C) 2026 Guanyuming He." +:+ Py.nl +:+ Py.nl /\
   has_file_notice "x = 1" 5 = -1 /\
   has_file_notice inserted 5 = 0 /\
   remove_existing_notice inserted 0 = Return "" /\
   remove_existing_notice inserted 1 = Return inserted /\
   "" <> "x = 1" /\ inserted <> "x = 1") /\
  (has_file_notice dos 5 = -1 /\
   has_file_notice (insert_notice dos "# " 0) 5 = 0 /\
   remove_existing_notice (insert_notice dos "# " 0) 0
   = Return ("x = 1" +:+ Py.nl) /\
   "x = 1" +:+ Py.nl <> dos).
Proof. vm_compute. repeat split; discriminate. Qed.

(** C2, as the code has it.  For a file without CR and without the marker,
    a prefix without LF and CR, and an insertion point before which every
    line ends with its line end, the detector finds the inserted marker at
    the clamped insertion index, and removing there gives the original
    content back. *)
Theorem insert_then_remove content prefix insert_line :
  let lines := Py.readlines content in
  let k := Z.max 0 (Z.min insert_line (Z.of_nat (length lines))) in
  cr_free content = true ->
  lf_free prefix = true -> cr_free prefix = true ->
  Forall (fun l => has_marker l = false) lines ->
  Forall (fun l => terminated l = true) (take (Z.to_nat k) lines) ->
  has_file_notice (insert_notice content prefix insert_line) (k + 1) = k /\
  remove_existing_notice (insert_notice content prefix insert_line) k
  = Return content.
Proof.
  intros lines k Hcr Hlf Hcrp Hplain Hterm.
  rewrite insert_notice_splice. fold lines.
  replace (Z.max 0 (Z.min insert_line (Z.of_nat (length lines)))) with k
    by reflexivity.
  set (n := Z.to_nat k) in *.
  assert (k = Z.of_nat n) as Hk by (unfold n, k; lia).
  assert (length (take n lines) = n) as Hlen
    by (rewrite length_take; unfold n, k; lia).
  assert (lines_ok (take n lines ++ notice_block prefix ++ drop n lines)) as Hok.
  { apply lines_ok_app; [exact Hterm|apply Forall_take, lines_ok_readlines|].
    apply lines_ok_app; [apply notice_block_terminated_prefix, Hlf
                        |apply notice_block_cr_free_prefix, Hcrp|].
    apply lines_ok_drop, lines_ok_readlines. }
  rewrite Hk. split.
  - apply (has_file_notice_found _ _ _
             (prefix +:+ "This file is licensed under the GNU GPL v3." +:+ Py.nl)).
    + rewrite readlines_writelines by exact Hok.
      rewrite lookup_app_r by lia. rewrite Hlen, Nat.sub_diag. reflexivity.
    + apply has_marker_first.
    + rewrite readlines_writelines by exact Hok.
      rewrite take_app_le by lia. rewrite take_take, Nat.min_id.
      apply Forall_take, Hplain.
    + lia.
  - rewrite remove_existing_notice_from, readlines_writelines by exact Hok.
    rewrite take_app_le by lia. rewrite take_take, Nat.min_id.
    rewrite drop_app_ge by lia. rewrite Hlen, Nat.sub_diag, drop_0.
    rewrite without_first_notice_block, take_drop.
    unfold lines. rewrite writelines_readlines.
    rewrite universal_newlines_cr_free by exact Hcr. reflexivity.
Qed.

Lemma insert_then_remove_witness :
  let content := "x = 1" +:+ Py.nl +:+ "y = 2" +:+ Py.nl in
  has_file_notice (insert_notice content "# " 1) 2 = 1 /\
  remove_existing_notice (insert_notice content "# " 1) 1 = Return content.
Proof.
  intros content.
  refine (insert_then_remove content "# " 1 _ _ _ _ _).
  - reflexivity.
  - reflexivity.
  - reflexivity.
  - repeat constructor.
  - repeat constructor.
Defined.

(** C5 fails on the code for a script that is one shebang line without a
    line end: the detector finds no notice and the first line starts with
    [#!], so [decide_notice] asks for line 1, but [insert_notice] writes the
    block straight behind the unfinished line.  The notice then starts in
    line 0, glued to the shebang, and not at line index 1. *)
Theorem decide_notice_glues_notice_to_shebang :
  let content := "#!/usr/bin/env python3" in
  let glued :=
    "#!/usr/bin/env python3# This file is licensed under the GNU GPL v3." +:+
    Py.nl in
  let second := "# Copyright (C) 2026 Guanyuming He." +:+ Py.nl in
  has_file_notice content 5 = -1 /\
  Py.startswith "#!" (hd EmptyString (Py.readlines content)) = true /\
  decide_notice ".py" content = Return (glued +:+ second +:+ Py.nl) /\
  Py.readlines (glued +:+ second +:+ Py.nl) = [glued; second; Py.nl] /\
  has_file_notice (glued +:+ second +:+ Py.nl) 5 = 0.
Proof. vm_compute. repeat split. Qed.

(** * More of the code *)

(** ** The loop of [remove_existing_notice] over any indices *)

Lemma loop_appends_cons sk l rest :
  loop_appends sk (l :: rest)
  = match sk with
    | actively_scan =>
        if has_marker l then loop_appends found_skipping rest
        else l :: loop_appends actively_scan rest
    | found_skipping =>
        if is_blank l then loop_appends dont_scan rest
        else loop_appends found_skipping rest
    | dont_scan => l :: loop_appends dont_scan rest
    end.
Proof. destruct sk; reflexivity. Qed.

(** When the subscripts [idxs] read the lines [ls], the loop over [idxs]
    does not raise and treats [ls] as the state machine says. *)
Lemma for_each_remove_lines lines idxs ls :
  Forall2 (fun i l => Py.subscript lines i = Some l) idxs ls ->
  forall sk out,
    for_each (remove_loop_body lines) (sk, out) idxs
    = Return (loop_state sk ls, out ++ loop_appends sk ls).
Proof.
  induction 1 as [|i l idxs ls Hi _ IH]; intros sk out.
  - simpl. destruct sk; simpl; rewrite app_nil_r; reflexivity.
  - simpl for_each. rewrite Hi. rewrite loop_appends_cons.
    destruct sk; simpl loop_state; unfold next_skipping, mbind, result_bind;
      simpl from_option; unfold has_marker, is_blank.
    + destruct (Py.str_in NOTICE_MARKER l); cbn beta iota; rewrite IH;
        [reflexivity|rewrite <- app_assoc; reflexivity].
    + destruct (String.eqb (Py.strip l) ""); cbn beta iota; rewrite IH;
        reflexivity.
    + rewrite IH, <- app_assoc. reflexivity.
Qed.

Lemma subscript_neg {A} (l : list A) (i : nat) :
  (i < length l)%nat ->
  Py.subscript l (Z.of_nat i - Z.of_nat (length l)) = l !! i.
Proof.
  intros Hi. unfold Py.subscript.
  destruct (Z.leb_spec 0 (Z.of_nat i - Z.of_nat (length l))); [lia|].
  destruct (Z.leb_spec 0 (Z.of_nat (length l) + (Z.of_nat i - Z.of_nat (length l))));
    [|lia].
  f_equal. lia.
Qed.

Lemma subscript_range (lines : list string) (n : nat) : forall a : nat,
  (a + n = length lines)%nat ->
  Forall2 (fun i l => Py.subscript lines i = Some l)
          (seqZ (Z.of_nat a) (Z.of_nat n)) (drop a lines).
Proof.
  induction n as [|n IH]; intros a Ha.
  - rewrite drop_ge by lia. constructor.
  - destruct (lookup_lt_is_Some_2 lines a ltac:(lia)) as [line Hline].
    rewrite seqZ_cons by lia. rewrite (drop_S _ _ _ Hline).
    replace (Z.succ (Z.of_nat a)) with (Z.of_nat (S a)) by lia.
    replace (Z.pred (Z.of_nat (S n))) with (Z.of_nat n) by lia.
    constructor; [rewrite subscript_nat; exact Hline|apply IH; lia].
Qed.

Lemma subscript_range_neg (lines : list string) (n : nat) : forall a : nat,
  (a + n = length lines)%nat ->
  Forall2 (fun i l => Py.subscript lines i = Some l)
          (seqZ (Z.of_nat a - Z.of_nat (length lines)) (Z.of_nat n))
          (drop a lines).
Proof.
  induction n as [|n IH]; intros a Ha.
  - rewrite drop_ge by lia. constructor.
  - destruct (lookup_lt_is_Some_2 lines a ltac:(lia)) as [line Hline].
    rewrite seqZ_cons by lia. rewrite (drop_S _ _ _ Hline).
    replace (Z.succ (Z.of_nat a - Z.of_nat (length lines)))
      with (Z.of_nat (S a) - Z.of_nat (length lines)) by lia.
    replace (Z.pred (Z.of_nat (S n))) with (Z.of_nat n) by lia.
    constructor; [rewrite subscript_neg by lia; exact Hline|apply IH; lia].
Qed.

(** ** [remove_existing_notice]: the start index *)

(** X1.  [remove_existing_notice] raises [IndexError] exactly when [start]
    is below minus the number of lines; it then writes nothing.  For every
    other start it returns. *)
Theorem remove_existing_notice_raises_iff content start :
  remove_existing_notice content start = Raise IndexError
  <-> start < - Z.of_nat (length (Py.readlines content)).
Proof.
  set (lines := Py.readlines content).
  assert (forall idxs ls out,
            Forall2 (fun i l => Py.subscript lines i = Some l) idxs ls ->
            ('(_, out) ← for_each (remove_loop_body lines) (actively_scan, out) idxs;
             Return (Py.writelines out)) <> Raise IndexError) as Hreturns.
  { intros idxs ls out H. rewrite (for_each_remove_lines _ _ _ H). discriminate. }
  unfold remove_existing_notice. fold lines. unfold Py.range. split.
  - intros Hraise.
    destruct (Z.lt_ge_cases start (- Z.of_nat (length lines))) as [|Hge];
      [assumption|exfalso].
    destruct (Z.lt_ge_cases start 0) as [Hneg|Hpos].
    + replace (Z.of_nat (length lines) - start)
        with (- start + Z.of_nat (length lines)) in Hraise by lia.
      rewrite seqZ_app in Hraise by lia.
      revert Hraise.
      apply (Hreturns _ (drop (Z.to_nat (Z.of_nat (length lines) + start)) lines
                         ++ lines)).
      apply Forall2_app.
      * replace start
          with (Z.of_nat (Z.to_nat (Z.of_nat (length lines) + start))
                - Z.of_nat (length lines)) at 1 by lia.
        replace (- start)
          with (Z.of_nat (length lines
                          - Z.to_nat (Z.of_nat (length lines) + start))) by lia.
        apply subscript_range_neg. lia.
      * replace (start + - start) with (Z.of_nat 0) by lia.
        replace (Z.of_nat (length lines)) with (Z.of_nat (length lines - 0)) by lia.
        apply (subscript_range lines (length lines - 0) 0). lia.
    + destruct (Z.le_gt_cases start (Z.of_nat (length lines))) as [Hle|Hgt].
      * revert Hraise.
        apply (Hreturns _ (drop (Z.to_nat start) lines)).
        replace start with (Z.of_nat (Z.to_nat start)) at 1 by lia.
        replace (Z.of_nat (length lines) - start)
          with (Z.of_nat (length lines - Z.to_nat start)) by lia.
        apply subscript_range. lia.
      * rewrite seqZ_nil in Hraise by lia. discriminate.
  - intros Hlow. rewrite seqZ_cons by lia. simpl for_each.
    assert (Py.subscript lines start = None) as ->; [|reflexivity].
    unfold Py.subscript.
    destruct (Z.leb_spec 0 start); [lia|].
    destruct (Z.leb_spec 0 (Z.of_nat (length lines) + start)); [lia|reflexivity].
Qed.

(** X2.  A start that is negative but not below minus the number of lines
    counts from the end, as Python slices and subscripts do: the lines
    before it are copied, and the loop then goes over the lines from it to
    the end and over the whole file once more.  On a file without the marker
    the text is written twice over. *)
Theorem remove_existing_notice_wraps content start :
  let lines := Py.readlines content in
  let n := Z.to_nat (Z.of_nat (length lines) + start) in
  - Z.of_nat (length lines) <= start < 0 ->
  remove_existing_notice content start
  = Return (Py.writelines
              (take n lines ++ without_first_notice (drop n lines ++ lines))) /\
  (Forall (fun l => has_marker l = false) lines ->
   remove_existing_notice content start
   = Return (Py.universal_newlines content +:+ Py.universal_newlines content)).
Proof.
  intros lines n Hstart.
  assert (remove_existing_notice content start
          = Return (Py.writelines
                      (take n lines ++
                       without_first_notice (drop n lines ++ lines)))) as Hrun.
  { unfold remove_existing_notice. fold lines. unfold Py.range, Py.slice_to.
    destruct (Z.ltb_spec start 0); [|lia]. fold n.
    replace (Z.of_nat (length lines) - start)
      with (- start + Z.of_nat (length lines)) by lia.
    rewrite seqZ_app by lia.
    rewrite (for_each_remove_lines lines _ (drop n lines ++ lines)).
    - reflexivity.
    - apply Forall2_app.
      + replace start with (Z.of_nat n - Z.of_nat (length lines)) at 1
          by (unfold n; lia).
        replace (- start) with (Z.of_nat (length lines - n)) by (unfold n; lia).
        apply subscript_range_neg. unfold n. lia.
      + replace (start + - start) with (Z.of_nat 0) by lia.
        replace (Z.of_nat (length lines)) with (Z.of_nat (length lines - 0)) by lia.
        apply (subscript_range lines (length lines - 0) 0). lia. }
  split; [exact Hrun|]. intros Hplain. rewrite Hrun.
  rewrite without_first_notice_none
    by (apply Forall_app; split; [apply Forall_drop|]; exact Hplain).
  rewrite app_assoc, take_drop, writelines_app. unfold lines.
  rewrite writelines_readlines. reflexivity.
Qed.

Lemma remove_existing_notice_wraps_witness :
  let content := "a" +:+ Py.nl +:+ "b" +:+ Py.nl in
  remove_existing_notice content (-1)
  = Return (Py.writelines
              (take 1 (Py.readlines content) ++
               without_first_notice (drop 1 (Py.readlines content) ++
                                     Py.readlines content))) /\
  remove_existing_notice content (-1) = Return (content +:+ content).
Proof.
  intros content.
  destruct (remove_existing_notice_wraps content (-1)) as [H1 H2].
  - vm_compute. split; [discriminate|reflexivity].
  - split; [exact H1|]. apply H2. repeat constructor.
Defined.

Lemma after_blank_sublist ls : after_blank ls `sublist_of` ls.
Proof. destruct (after_blank_suffix ls) as [k ->]. apply sublist_drop. Qed.

Lemma without_first_notice_sublist ls : without_first_notice ls `sublist_of` ls.
Proof.
  induction ls as [|l ls IH]; [constructor|]. simpl.
  destruct (has_marker l).
  - apply sublist_cons, after_blank_sublist.
  - apply sublist_skip, IH.
Qed.

(** X3.  With a start that is not negative [remove_existing_notice] only
    takes lines away: what it writes is a sublist of the lines it read, so
    no line is added, changed or moved. *)
Theorem remove_existing_notice_sublist content (start : nat) :
  exists out,
    remove_existing_notice content (Z.of_nat start) = Return (Py.writelines out) /\
    out `sublist_of` Py.readlines content.
Proof.
  eexists. split; [apply remove_existing_notice_from|].
  rewrite <- (take_drop start (Py.readlines content)) at 3.
  apply sublist_app; [reflexivity|apply without_first_notice_sublist].
Qed.

(** ** The detector *)

(** X4.  [has_file_notice] returns -1, and then none of the first [end_]
    lines has the marker, or it returns an index below [end_] of a line of
    the file that has the marker, and no line before that one has it. *)
Theorem has_file_notice_range content end_ :
  let lines := Py.readlines content in
  let r := has_file_notice content end_ in
  (r = -1 /\
   forall (i : nat) l, Z.of_nat i < end_ -> lines !! i = Some l ->
                       has_marker l = false) \/
  (0 <= r < end_ /\ r < Z.of_nat (length lines) /\
   (exists line, lines !! Z.to_nat r = Some line /\ has_marker line = true) /\
   forall (i : nat) l, Z.of_nat i < r -> lines !! i = Some l ->
                       has_marker l = false).
Proof.
  intros lines r. unfold r, lines.
  destruct (has_file_notice_cases content end_)
    as [[H Hnone]|(m & line & Hlt & Hm & Hline & Hbefore & H)]; rewrite H.
  - left. split; [reflexivity|]. intros i l Hi Hl.
    apply (Forall_lookup_1 _ _ i l Hnone).
    rewrite lookup_take_lt by lia. exact Hl.
  - right. split; [lia|]. split; [apply lookup_lt_Some in Hm; lia|].
    rewrite Nat2Z.id. split; [exists line; auto|]. intros i l Hi Hl.
    apply (Forall_lookup_1 _ _ i l Hbefore).
    rewrite lookup_take_lt by lia. exact Hl.
Qed.

(** X5.  The index of a notice does not depend on the window: when
    [has_file_notice] finds a notice at [r] with one window, it finds it at
    [r] with every window that reaches beyond [r]. *)
Theorem has_file_notice_window content end_ end' :
  has_file_notice content end_ <> -1 ->
  has_file_notice content end_ < end' ->
  has_file_notice content end' = has_file_notice content end_.
Proof.
  intros Hfound Hreach.
  destruct (has_file_notice_cases content end_)
    as [[H _]|(m & line & Hlt & Hm & Hline & Hbefore & H)]; [congruence|].
  rewrite H in *. apply (has_file_notice_found _ _ _ line); assumption.
Qed.

Lemma has_file_notice_window_witness :
  let content :=
    "#!/bin/sh" +:+ Py.nl +:+
    "# This file is licensed under the GNU GPL v3." +:+ Py.nl in
  has_file_notice content 2 = has_file_notice content 5.
Proof.
  intros content. apply (has_file_notice_window content 5 2).
  - vm_compute. discriminate.
  - vm_compute. reflexivity.
Defined.

(** ** [insert_notice]: the insertion index *)

(** X6.  [insert_notice] clamps: with an [insert_line] of 0 or less (a
    negative one does not count from the end) the file is the block followed
    by the text it had, with an [insert_line] of the number of lines or more
    it is the text it had followed by the block.  It never raises. *)
Theorem insert_notice_clamped content prefix insert_line :
  (insert_line <= 0 ->
   insert_notice content prefix insert_line
   = Py.writelines (notice_block prefix) +:+ Py.universal_newlines content) /\
  (Z.of_nat (length (Py.readlines content)) <= insert_line ->
   insert_notice content prefix insert_line
   = Py.universal_newlines content +:+ Py.writelines (notice_block prefix)).
Proof.
  split; intros H; rewrite insert_notice_splice; cbv zeta.
  - replace (Z.to_nat _) with 0%nat by lia.
    rewrite take_0, drop_0, app_nil_l, writelines_app, writelines_readlines.
    reflexivity.
  - replace (Z.to_nat _) with (length (Py.readlines content)) by lia.
    rewrite take_ge, drop_ge, app_nil_r, writelines_app, writelines_readlines
      by lia.
    reflexivity.
Qed.

Lemma insert_notice_clamped_witness :
  let content := "x" +:+ Py.nl in
  insert_notice content "% " (-7)
  = Py.writelines (notice_block "% ") +:+ content /\
  insert_notice content "% " 9
  = content +:+ Py.writelines (notice_block "% ").
Proof.
  intros content. split.
  - destruct (insert_notice_clamped content "% " (-7)) as [H _].
    apply H. lia.
  - destruct (insert_notice_clamped content "% " 9) as [_ H].
    apply H. vm_compute. discriminate.
Defined.

(** ** [decide_notice] on every file *)

Lemma split_keepends_glued l s x r :
  lf_free l = true -> Py.split_keepends s = x :: r ->
  Py.split_keepends (l +:+ s) = (l +:+ x) :: r.
Proof.
  intros Hl Hs. induction l as [|c l IH]; [exact Hs|].
  simpl in Hl. apply andb_true_iff in Hl as [Hc Hl].
  rewrite str_app_cons. simpl.
  destruct (Ascii.eqb c Py.LF); [discriminate|].
  rewrite (IH Hl). reflexivity.
Qed.

Lemma has_file_notice_first_line content end_ line rest :
  Py.readlines content = line :: rest -> has_marker line = true ->
  0 < end_ -> has_file_notice content end_ = 0.
Proof.
  intros Hlines Hline Hend.
  apply (has_file_notice_found content end_ 0 line);
    [rewrite Hlines; reflexivity|exact Hline|constructor|lia].
Qed.

(** X7.  [decide_notice] returns for every file (the remover is only called
    with an index of a line, so [IndexError] does not occur), and in what it
    leaves the detector finds the notice on line 0 or on line 1. *)
Theorem decide_notice_detected suffix content :
  exists result,
    decide_notice suffix content = Return result /\
    (has_file_notice result 5 = 0 \/ has_file_notice result 5 = 1).
Proof.
  exists (Py.writelines (with_notice suffix (kept_lines content))).
  split; [apply decide_notice_eq|].
  pose proof (kept_lines_ok content) as Hok.
  set (kept := kept_lines content) in *.
  set (first := comment_prefix suffix +:+
                "This file is licensed under the GNU GPL v3." +:+ Py.nl).
  destruct (canonical_line_cases suffix kept)
    as [Hk|(Hk & _ & l & rest & Hkept & _)].
  - left. unfold with_notice. rewrite Hk, take_0, drop_0, app_nil_l.
    apply (has_file_notice_first_line _ _ first
             ((comment_prefix suffix +:+ "Copyright (C) 2026 Guanyuming He." +:+ Py.nl)
              :: Py.nl :: kept)); [|apply has_marker_first|lia].
    apply readlines_writelines.
    apply (lines_ok_app (notice_block (comment_prefix suffix)));
      [apply notice_block_terminated|apply notice_block_cr_free|exact Hok].
  - unfold with_notice. rewrite Hk, Hkept.
    change (take 1 (l :: rest)) with [l]. change (drop 1 (l :: rest)) with rest.
    rewrite Hkept in Hok.
    destruct (terminated l) eqn:Hterm.
    + assert (Py.readlines
                (Py.writelines ([l] ++ notice_block (comment_prefix suffix) ++ rest))
              = [l] ++ notice_block (comment_prefix suffix) ++ rest) as Hread.
      { apply readlines_writelines. apply lines_ok_app.
        - repeat constructor. exact Hterm.
        - destruct Hok as [_ Hcr]. apply Forall_cons in Hcr as [Hcr _].
          repeat constructor. exact Hcr.
        - apply lines_ok_app;
            [apply notice_block_terminated|apply notice_block_cr_free|].
          exact (lines_ok_tail _ _ Hok). }
      destruct (has_marker l) eqn:Hmarker.
      * left. eapply has_file_notice_first_line; [exact Hread|exact Hmarker|lia].
      * right. apply (has_file_notice_found _ _ 1 first);
          [rewrite Hread; reflexivity|apply has_marker_first| |lia].
        rewrite Hread. simpl. repeat constructor. exact Hmarker.
    + left. destruct rest as [|l' rest].
      2:{ apply lines_ok_cons_inv in Hok as [Hok _]. congruence. }
      destruct Hok as [Hwf Hcr]. simpl in Hwf. rewrite Hterm in Hwf.
      simpl in Hwf. apply andb_true_iff in Hwf as [Hlf _].
      apply Forall_cons in Hcr as [Hcr _].
      rewrite app_nil_r. change ([l] ++ notice_block (comment_prefix suffix))
        with (l :: notice_block (comment_prefix suffix)).
      rewrite writelines_cons.
      apply (has_file_notice_first_line _ _ (l +:+ first)
               [comment_prefix suffix +:+ "Copyright (C) 2026 Guanyuming He." +:+ Py.nl;
                Py.nl]); [|apply str_in_app_l, has_marker_first|lia].
      unfold Py.readlines. rewrite universal_newlines_cr_free.
      * apply split_keepends_glued; [exact Hlf|].
        apply split_keepends_writelines, wf_lines_all, notice_block_terminated.
      * rewrite cr_free_app, Hcr.
        apply cr_free_writelines, notice_block_cr_free.
Qed.

Lemma lower_char_idempotent c :
  Py.lower_char (Py.lower_char c) = Py.lower_char c.
Proof. destruct c as [[] [] [] [] [] [] [] []]; reflexivity. Qed.

Lemma lower_idempotent s : Py.lower (Py.lower s) = Py.lower s.
Proof.
  induction s as [|c s IH]; [reflexivity|]. simpl.
  rewrite lower_char_idempotent, IH. reflexivity.
Qed.

(** X8.  [decide_notice] looks at the suffix through its lower-case form
    only: a suffix and its lower-case form give the same result on every
    content, so [.PY] is treated as [.py]. *)
Theorem decide_notice_lower_suffix suffix content :
  decide_notice suffix content = decide_notice (Py.lower suffix) content.
Proof. unfold decide_notice. rewrite lower_idempotent. reflexivity. Qed.

Lemma readlines_universal_newlines_idem content :
  Py.readlines (Py.universal_newlines content) = Py.readlines content.
Proof.
  unfold Py.readlines.
  rewrite (universal_newlines_cr_free (Py.universal_newlines content))
    by apply cr_free_universal_newlines.
  reflexivity.
Qed.

Lemma kept_lines_cr_free content :
  Forall (fun l => cr_free l = true) (kept_lines content).
Proof. apply kept_lines_ok. Qed.

(** X9.  The result of [decide_notice] has no CR: with the universal
    newlines of the text mode a file with CR LF or CR line ends is written
    back with LF line ends.  The result is the same as for the file with its
    line ends already translated. *)
Theorem decide_notice_line_ends suffix content :
  exists result,
    decide_notice suffix content = Return result /\
    cr_free result = true /\
    decide_notice suffix (Py.universal_newlines content) = Return result.
Proof.
  exists (Py.writelines (with_notice suffix (kept_lines content))).
  split; [apply decide_notice_eq|]. split.
  - apply cr_free_writelines. unfold with_notice.
    apply Forall_app. split; [apply Forall_take, kept_lines_cr_free|].
    apply Forall_app. split; [apply notice_block_cr_free|].
    apply Forall_drop, kept_lines_cr_free.
  - rewrite decide_notice_eq. unfold kept_lines, has_file_notice.
    rewrite readlines_universal_newlines_idem. reflexivity.
Qed.

(** X10.  On an empty file [decide_notice] writes the block for the suffix
    and nothing else, whatever the suffix is. *)
Theorem decide_notice_empty_file suffix :
  decide_notice suffix ""
  = Return (Py.writelines (notice_block (comment_prefix suffix))).
Proof.
  rewrite decide_notice_eq.
  change (kept_lines "") with (@nil string). unfold with_notice.
  rewrite take_nil, drop_nil, app_nil_r. reflexivity.
Qed.

(** X11.  When the detector finds a notice and no blank line follows its
    marker line [m], [decide_notice] keeps the lines before [m] only: every
    line from [m] to the end of the file is lost, and the block is put in
    front of (or, behind a shebang, into) what is left. *)
Theorem decide_notice_truncates suffix content (m : nat) line :
  let lines := Py.readlines content in
  (m < 5)%nat -> lines !! m = Some line -> has_marker line = true ->
  (forall (i : nat) l, (i < m)%nat -> lines !! i = Some l ->
     has_marker l = false) ->
  (forall (j : nat) l, (m < j)%nat -> lines !! j = Some l ->
     is_blank l = false) ->
  decide_notice suffix content
  = Return (Py.writelines (with_notice suffix (take m lines))).
Proof.
  intros lines Hm Hline Hmarker Hbefore Hnoblank.
  assert (Forall (fun l => has_marker l = false) (take m lines)) as Hplain.
  { apply Forall_lookup_2. intros i l Hi.
    apply lookup_take_Some in Hi as [Hi Hlt]. exact (Hbefore i l Hlt Hi). }
  rewrite decide_notice_eq. unfold kept_lines. fold lines.
  rewrite (has_file_notice_found content 5 m line) by (auto; lia).
  replace (Z.of_nat m =? -1) with false by (symmetry; apply Z.eqb_neq; lia).
  rewrite Nat2Z.id.
  rewrite (remove_from_first_marker lines m m line) by (auto; intros; lia).
  rewrite after_blank_none, app_nil_r; [reflexivity|].
  apply Forall_lookup_2. intros j l Hj. rewrite lookup_drop in Hj.
  apply (Hnoblank (S m + j)%nat); [lia|exact Hj].
Qed.

Lemma decide_notice_truncates_witness :
  let content :=
    "int x;" +:+ Py.nl +:+
    "// This file is licensed under the GNU GPL v3." +:+ Py.nl +:+
    "int y;" +:+ Py.nl +:+ "int z;" in
  decide_notice ".c" content
  = Return ("// This file is licensed under the GNU GPL v3." +:+ Py.nl +:+
            "// Copyright (C) 2026 Guanyuming He." +:+ Py.nl +:+ Py.nl +:+
            "int x;" +:+ Py.nl).
Proof.
  intros content.
  refine (decide_notice_truncates ".c" content 1
            ("// This file is licensed under the GNU GPL v3." +:+ Py.nl)
            _ _ _ _ _).
  - lia.
  - reflexivity.
  - reflexivity.
  - intros i l Hi. assert (i = 0%nat) as -> by lia.
    intros [= <-]. reflexivity.
  - intros j l Hj. destruct j as [|[|[|[|j]]]]; try lia;
      intros [= <-]; reflexivity.
Defined.

(** ** Where the block lands *)

Lemma decide_notice_written suffix content :
  has_file_notice content 5 = -1 ->
  Forall (fun l => terminated l = true)
         (take (canonical_line suffix (Py.readlines content))
               (Py.readlines content)) ->
  exists result,
    decide_notice suffix content = Return result /\
    Py.readlines result = with_notice suffix (Py.readlines content).
Proof.
  intros Hnone Hterm. eexists. split; [apply decide_notice_eq|].
  unfold kept_lines. rewrite Hnone. simpl.
  apply readlines_writelines, with_notice_ok;
    [apply lines_ok_readlines|exact Hterm].
Qed.

(** X19.  Where the block lands when the detector finds no notice.  For
    [.cpp], [.tex] and a suffix in none of the three sets the file read
    again is the block (prefix ["// "], ["% "], ["// "]) on lines 0 to 2
    and the original lines behind it.  For [.py] with a first line that
    starts with [#!] and ends with its line end, line 0 is the shebang, the
    block with prefix ["# "] is on lines 1 to 3, and the other lines
    follow. *)
Theorem decide_notice_lands suffix content :
  has_file_notice content 5 = -1 ->
  exists result,
    decide_notice suffix content = Return result /\
    (Py.lower suffix = ".py" ->
     forall shebang rest,
       Py.readlines content = shebang :: rest ->
       Py.startswith "#!" shebang = true -> terminated shebang = true ->
       Py.readlines result = shebang :: notice_block "# " ++ rest) /\
    (Py.lower suffix = ".cpp" ->
     Py.readlines result = notice_block "// " ++ Py.readlines content) /\
    (Py.lower suffix = ".tex" ->
     Py.readlines result = notice_block "% " ++ Py.readlines content) /\
    (Py.lower suffix ∉ C_EXTS -> Py.lower suffix ∉ SCRIPT_EXTS ->
     Py.lower suffix ∉ TEX_EXTS ->
     Py.readlines result = notice_block "// " ++ Py.readlines content).
Proof.
  intros Hnone.
  exists (Py.writelines (with_notice suffix (kept_lines content))).
  split; [apply decide_notice_eq|].
  assert (forall k p,
            canonical_line suffix (Py.readlines content) = k ->
            comment_prefix suffix = p ->
            Forall (fun l => terminated l = true) (take k (Py.readlines content)) ->
            Py.readlines (Py.writelines (with_notice suffix (kept_lines content)))
            = take k (Py.readlines content) ++ notice_block p ++
              drop k (Py.readlines content)) as Hread.
  { intros k p Hk Hp Hterm.
    destruct (decide_notice_written suffix content Hnone) as (r & Hr & Hlines);
      [rewrite Hk; exact Hterm|].
    rewrite decide_notice_eq in Hr. injection Hr as <-.
    rewrite Hlines. unfold with_notice. rewrite Hk, Hp. reflexivity. }
  split; [|split; [|split]].
  - intros Hs shebang rest Hlines Hshebang Hterm.
    rewrite (Hread 1%nat "# ").
    + rewrite Hlines. reflexivity.
    + unfold canonical_line. rewrite Hs, Hlines. simpl hd. rewrite Hshebang.
      repeat case_bool_decide; try reflexivity; ext_absurd.
    + unfold comment_prefix. rewrite Hs.
      repeat case_bool_decide; try reflexivity; ext_absurd.
    + rewrite Hlines. repeat constructor. exact Hterm.
  - intros Hs. rewrite (Hread 0%nat "// "); [reflexivity| | |constructor].
    + unfold canonical_line. rewrite Hs.
      repeat case_bool_decide; try reflexivity; ext_absurd.
    + unfold comment_prefix. rewrite Hs.
      repeat case_bool_decide; try reflexivity; ext_absurd.
  - intros Hs. rewrite (Hread 0%nat "% "); [reflexivity| | |constructor].
    + unfold canonical_line. rewrite Hs.
      repeat case_bool_decide; try reflexivity; ext_absurd.
    + unfold comment_prefix. rewrite Hs.
      repeat case_bool_decide; try reflexivity; ext_absurd.
  - intros H1 H2 H3. rewrite (Hread 0%nat "// "); [reflexivity| | |constructor].
    + unfold canonical_line. rewrite !bool_decide_eq_false_2 by assumption.
      reflexivity.
    + unfold comment_prefix. rewrite !bool_decide_eq_false_2 by assumption.
      reflexivity.
Qed.

Lemma decide_notice_lands_witness :
  let content := "#!/usr/bin/env python3" +:+ Py.nl +:+ "print(1)" +:+ Py.nl in
  exists result,
    decide_notice ".PY" content = Return result /\
    Py.readlines result
    = ("#!/usr/bin/env python3" +:+ Py.nl)
      :: notice_block "# " ++ ["print(1)" +:+ Py.nl].
Proof.
  intros content.
  destruct (decide_notice_lands ".PY" content ltac:(reflexivity))
    as (result & Hrun & Hpy & _).
  exists result. split; [exact Hrun|].
  apply (Hpy ltac:(reflexivity) ("#!/usr/bin/env python3" +:+ Py.nl)
             ["print(1)" +:+ Py.nl]); reflexivity.
Defined.

(** ** The git guards *)

(** X12.  [is_git_work_tree] returns true exactly when git exits with
    status 0 and prints [true], white space around it aside;
    [git_work_tree_clean] returns true exactly when git exits with status 0
    and prints nothing but white space. *)
Theorem git_guards_true_iff (git : process_outcome) :
  (is_git_work_tree git = Return true
   <-> exists stdout, git = Exited 0 stdout /\ Py.strip stdout = "true") /\
  (git_work_tree_clean git = Return true
   <-> exists stdout, git = Exited 0 stdout /\ all_space stdout = true).
Proof.
  unfold is_git_work_tree, git_work_tree_clean. split; split.
  - destruct git as [[| |] stdout|]; simpl; try discriminate.
    intros [= H]. apply String.eqb_eq in H. eauto.
  - intros (stdout & -> & H). simpl. rewrite H. reflexivity.
  - destruct git as [[| |] stdout|]; simpl; try discriminate.
    change (String.eqb (Py.strip stdout) "") with (is_blank stdout).
    rewrite is_blank_all_space. destruct (all_space stdout) eqn:E;
      [eauto|discriminate].
  - intros (stdout & -> & H). simpl.
    change (String.eqb (Py.strip stdout) "") with (is_blank stdout).
    rewrite is_blank_all_space, H. reflexivity.
Qed.

(** ** [main] *)

Section MainFacts.

Variable is_absolute : string -> bool.
Variable joinpath : string -> string -> string.
Variable path_suffix : string -> string.
Variable is_dir : string -> bool.
Variable rglob : string -> list string.
Variable access_rw : string -> bool.


Lemma decide_notice_at_file path (fs : gmap string string) content :
  fs !! path = Some content -> access_rw path = true ->
  exists result,
    decide_notice (path_suffix path) content = Return result /\
    decide_notice_at path_suffix access_rw path fs
    = (Return (), <[path := result]> fs).
Proof.
  intros H Hacc. unfold decide_notice_at. rewrite H, Hacc, decide_notice_eq.
  eexists. split; reflexivity.
Qed.

(** A file that is not readable and writable makes [decide_notice] raise and
    stays as it is. *)
Lemma decide_notice_at_denied path (fs : gmap string string) :
  access_rw path = false ->
  decide_notice_at path_suffix access_rw path fs = (Raise OSError, fs).
Proof.
  intros Hacc. unfold decide_notice_at. rewrite Hacc.
  destruct (fs !! path); reflexivity.
Qed.

Lemma is_file_true (fs : gmap string string) path :
  is_file fs path = true -> exists content, fs !! path = Some content.
Proof.
  unfold is_file. intros H. apply bool_decide_eq_true in H as [c H]. eauto.
Qed.

Lemma is_file_dom (fs fs' : gmap string string) path :
  dom fs' = dom fs -> is_file fs' path = is_file fs path.
Proof.
  intros Hdom. unfold is_file. apply bool_decide_ext.
  rewrite <- !elem_of_dom, Hdom. reflexivity.
Qed.

(** The walk over a listing never raises; it leaves alone every file that
    is not listed or not accessible, and keeps the set of files. *)
Lemma walk_facts (file_paths : list string) : forall fs : gmap string string,
  exists fs',
    walk path_suffix access_rw file_paths fs = (Return (), fs') /\
    dom fs' = dom fs /\
    forall q, (q ∉ file_paths \/ access_rw q = false) -> fs' !! q = fs !! q.
Proof.
  induction file_paths as [|p rest IH]; intros fs.
  - exists fs. repeat split; auto.
  - simpl walk.
    destruct (negb (is_file fs p) || negb (access_rw p)) eqn:Hskip.
    + destruct (IH fs) as (fs' & Hwalk & Hdom & Hother).
      exists fs'. split; [exact Hwalk|]. split; [exact Hdom|].
      intros q [Hq|Hq]; apply Hother; [left|right; exact Hq].
      intros Hin. apply Hq. right. exact Hin.
    + apply orb_false_iff in Hskip as [Hfile Hacc].
      apply negb_false_iff in Hfile. apply negb_false_iff in Hacc.
      destruct (is_file_true fs p Hfile) as [content Hp].
      destruct (decide_notice_at_file p fs content Hp Hacc) as (result & _ & ->).
      destruct (IH (<[p := result]> fs)) as (fs' & Hwalk & Hdom & Hother).
      exists fs'. split; [exact Hwalk|]. split.
      * rewrite Hdom. apply dom_insert_lookup_L. eauto.
      * intros q Hq. rewrite Hother.
        -- apply lookup_insert_ne. intros <-. destruct Hq as [Hq|Hq];
             [apply Hq; left|congruence].
        -- destruct Hq as [Hq|Hq]; [left|right; exact Hq].
           intros Hin. apply Hq. right. exact Hin.
Qed.


(** The loop over the arguments keeps the set of files and returns or raises
    [OSError]; it returns when no argument is denied and raises when one is.
    A file is left alone when no argument names it and, under every argument
    that lists it, it is not accessible. *)
Lemma process_args_facts root (args : list string) :
  forall fs : gmap string string,
  exists r fs',
    process_args is_absolute joinpath path_suffix is_dir rglob access_rw root args fs = (r, fs') /\
    dom fs' = dom fs /\
    (forall q,
       (forall p, p ∈ args ->
          resolved_path is_absolute joinpath root p <> q /\
          (q ∈ rglob (resolved_path is_absolute joinpath root p) -> access_rw q = false)) ->
       fs' !! q = fs !! q) /\
    ((forall p, p ∈ args -> ~ denied is_absolute joinpath access_rw root fs p) -> r = Return ()) /\
    ((exists p, p ∈ args /\ denied is_absolute joinpath access_rw root fs p) -> r = Raise OSError).
Proof.
  induction args as [|p rest IH]; intros fs.
  - exists (Return ()), fs. split; [reflexivity|]. split; [reflexivity|].
    split; [reflexivity|]. split; [reflexivity|].
    intros (p & Hp & _). inversion Hp.
  - simpl process_args. fold (resolved_path is_absolute joinpath root p). set (path := resolved_path is_absolute joinpath root p).
    destruct (is_file fs path) eqn:Hfile.
    + destruct (access_rw path) eqn:Hacc.
      * destruct (is_file_true fs path Hfile) as [content Hp].
        destruct (decide_notice_at_file path fs content Hp Hacc)
          as (result & _ & ->).
        assert (dom (<[path := result]> fs) = dom fs) as Hdom1
          by (apply dom_insert_lookup_L; eauto).
        destruct (IH (<[path := result]> fs))
          as (r & fs' & Hrun & Hdom & Hother & Hok & Hbad).
        exists r, fs'. split; [exact Hrun|]. split; [congruence|]. split.
        { intros q Hq. rewrite Hother.
          - apply lookup_insert_ne. apply (Hq p). left.
          - intros p' Hp'. apply Hq. right. exact Hp'. }
        split.
        { intros Hnone. apply Hok. intros p' Hp' [H1 H2].
          apply (Hnone p'); [right; exact Hp'|]. split; [|exact H2].
          rewrite <- (is_file_dom fs _ _ Hdom1). exact H1. }
        { intros (p' & Hp' & [H1 H2]). apply Hbad.
          apply elem_of_cons in Hp' as [->|Hp'].
          - fold path in H2. congruence.
          - exists p'. split; [exact Hp'|]. split; [|exact H2].
            rewrite (is_file_dom fs _ _ Hdom1). exact H1. }
      * rewrite (decide_notice_at_denied path fs Hacc).
        exists (Raise OSError), fs. split; [reflexivity|]. split; [reflexivity|].
        split; [reflexivity|]. split; [|reflexivity].
        intros Hnone. exfalso. apply (Hnone p); [left|]. split; assumption.
    + assert (exists fs1,
                (if is_dir path then walk path_suffix access_rw (rglob path) fs
                 else (Return (), fs)) = (Return (), fs1) /\
                dom fs1 = dom fs /\
                forall q, (q ∈ rglob path -> access_rw q = false) ->
                          fs1 !! q = fs !! q) as (fs1 & -> & Hdom1 & Hother1).
      { destruct (is_dir path).
        - destruct (walk_facts (rglob path) fs) as (fs1 & Hwalk & Hdom & Hother).
          exists fs1. split; [exact Hwalk|]. split; [exact Hdom|].
          intros q Hq. apply Hother.
          destruct (decide (q ∈ rglob path)); [right; auto|left; assumption].
        - exists fs. repeat split; auto. }
      destruct (IH fs1) as (r & fs' & Hrun & Hdom & Hother & Hok & Hbad).
      exists r, fs'. split; [exact Hrun|]. split; [congruence|]. split.
      { intros q Hq. rewrite Hother.
        - apply Hother1. apply (Hq p). left.
        - intros p' Hp'. apply Hq. right. exact Hp'. }
      split.
      { intros Hnone. apply Hok. intros p' Hp' [H1 H2].
        apply (Hnone p'); [right; exact Hp'|]. split; [|exact H2].
        rewrite <- (is_file_dom fs _ _ Hdom1). exact H1. }
      { intros (p' & Hp' & [H1 H2]). apply Hbad.
        apply elem_of_cons in Hp' as [->|Hp'].
        - fold path in H1. congruence.
        - exists p'. split; [exact Hp'|]. split; [|exact H2].
          rewrite (is_file_dom fs _ _ Hdom1). exact H1. }
Qed.

(** When the guards pass, [main] is the loop over the arguments; it
    returns 0 when the loop returns. *)
Lemma main_guards_pass (args : list string) git root (fs : gmap string string) :
  "--help" ∉ args -> args <> [] -> guards_pass git root ->
  main is_absolute joinpath path_suffix is_dir rglob access_rw args git fs
  = (match (process_args is_absolute joinpath path_suffix is_dir rglob access_rw root args fs).1 with
     | Return _ => Return 0
     | Raise e => Raise e
     end,
     (process_args is_absolute joinpath path_suffix is_dir rglob access_rw root args fs).2).
Proof.
  intros Hhelp Hargs (Hin & Hroot & Hclean). unfold main.
  rewrite bool_decide_eq_false_2 by exact Hhelp.
  destruct args as [|p rest]; [congruence|].
  change (length (p :: rest) =? 0)%nat with false. simpl orb. cbn iota.
  rewrite Hin, Hroot, Hclean.
  destruct (process_args is_absolute joinpath path_suffix is_dir rglob access_rw root (p :: rest) fs) as [[u|e] fs']; reflexivity.
Qed.

(** Without the guards [main] stops before it opens a file, with a result
    that is not the return of 0. *)
Lemma main_guards_fail (args : list string) git (fs : gmap string string) :
  "--help" ∉ args -> args <> [] -> (forall root, ~ guards_pass git root) ->
  exists r,
    main is_absolute joinpath path_suffix is_dir rglob access_rw args git fs = (r, fs) /\
    (exit_status r = 1 \/ exit_status r = 255).
Proof.
  intros Hhelp Hargs Hfail. unfold main.
  rewrite bool_decide_eq_false_2 by exact Hhelp.
  destruct args as [|p rest]; [congruence|].
  change (length (p :: rest) =? 0)%nat with false. simpl orb. cbn iota.
  unfold guards_pass in Hfail.
  destruct (is_git_work_tree (rev_parse_is_inside_work_tree git))
    as [[|]|e] eqn:Hin.
  - destruct (git_root (rev_parse_show_toplevel git)) as [root|e] eqn:Hroot.
    + destruct (git_work_tree_clean (status_porcelain git)) as [[|]|e] eqn:Hclean.
      * exfalso. apply (Hfail root). auto.
      * eexists. split; [reflexivity|right; reflexivity].
      * eexists. split; [reflexivity|left].
        unfold git_work_tree_clean in Hclean.
        destruct (status_porcelain git) as [[| |] out|]; simpl in Hclean;
          try destruct (negb _); inversion Hclean; reflexivity.
    + eexists. split; [reflexivity|left].
      unfold git_root in Hroot.
      destruct (rev_parse_show_toplevel git) as [[| |] out|]; simpl in Hroot;
        inversion Hroot; reflexivity.
  - eexists. split; [reflexivity|right; reflexivity].
  - eexists. split; [reflexivity|left].
    unfold is_git_work_tree in Hin.
    destruct (rev_parse_is_inside_work_tree git) as [[| |] out|]; simpl in Hin;
      inversion Hin; reflexivity.
Qed.

Lemma main_help (args : list string) git (fs : gmap string string) :
  ("--help" ∈ args) \/ args = [] ->
  main is_absolute joinpath path_suffix is_dir rglob access_rw args git fs = (Return 0, fs).
Proof.
  intros [H| ->]; unfold main.
  - rewrite bool_decide_eq_true_2 by exact H. reflexivity.
  - rewrite orb_true_r. reflexivity.
Qed.

Lemma guards_decidable git : (exists root, guards_pass git root) \/
                             (forall root, ~ guards_pass git root).
Proof.
  unfold guards_pass.
  destruct (is_git_work_tree (rev_parse_is_inside_work_tree git)) as [[|]|e];
    [|right; intros root (H & _); discriminate..].
  destruct (git_root (rev_parse_show_toplevel git)) as [root|e];
    [|right; intros root (_ & H & _); discriminate].
  destruct (git_work_tree_clean (status_porcelain git)) as [[|]|e];
    [left; exists root; auto|right; intros root' (_ & _ & H); discriminate..].
Qed.


Lemma main_cases (args : list string) git (fs : gmap string string) :
(("--help" ∈ args) \/ args = []) \/
  (("--help" ∉ args) /\ args <> [] /\ exists root, guards_pass git root) \/
  (("--help" ∉ args) /\ args <> [] /\ forall root, ~ guards_pass git root).
Proof.
  destruct (decide ("--help" ∈ args)); [left; left; assumption|].
  destruct args as [|p rest]; [left; right; reflexivity|].
  destruct (guards_decidable git); [right; left|right; right];
    repeat split; auto; discriminate.
Qed.


(** X13.  [main] changes a file only in a run with arguments, without
    [--help], in which all three guards pass: inside a work tree, top level
    known, tree clean.  In every other run the file system stays as it
    is. *)
Theorem main_changes_only_behind_guards
    (args : list string) git (fs : gmap string string) :
  (main is_absolute joinpath path_suffix is_dir rglob access_rw args git fs).2 <> fs ->
  ("--help" ∉ args) /\ args <> [] /\ exists root, guards_pass git root.
Proof.
  intros Hchanged.
  destruct (main_cases args git fs) as [H|[H|(H1 & H2 & H3)]]; [|exact H|].
  - rewrite (main_help args git fs H) in Hchanged. contradiction.
  - destruct (main_guards_fail args git fs H1 H2 H3) as (r & Hmain & _).
    rewrite Hmain in Hchanged. contradiction.
Qed.


(** X15.  [main] never creates and never removes a file: the set of
    regular files is the same after every run. *)
Theorem main_keeps_file_set (args : list string) git (fs : gmap string string) :
  dom (main is_absolute joinpath path_suffix is_dir rglob access_rw args git fs).2 = dom fs.
Proof.
  destruct (main_cases args git fs)
    as [H|[(H1 & H2 & root & H3)|(H1 & H2 & H3)]].
  - rewrite (main_help args git fs H). reflexivity.
  - rewrite (main_guards_pass args git root fs H1 H2 H3). simpl.
    destruct (process_args_facts root args fs) as (r & fs' & -> & Hdom & _).
    exact Hdom.
  - destruct (main_guards_fail args git fs H1 H2 H3) as (r' & -> & _).
    reflexivity.
Qed.

(** X16.  A file keeps its content when no argument resolves to it and,
    under every argument whose listing has it, it is not both readable and
    writable: the walk skips such files. *)
Theorem main_leaves_file
    (args : list string) git (fs : gmap string string) (q : string) :
  (forall root p,
     git_root (rev_parse_show_toplevel git) = Return root -> p ∈ args ->
     resolved_path is_absolute joinpath root p <> q /\
     (q ∈ rglob (resolved_path is_absolute joinpath root p) -> access_rw q = false)) ->
  (main is_absolute joinpath path_suffix is_dir rglob access_rw args git fs).2 !! q = fs !! q.
Proof.
  intros Hq.
  destruct (main_cases args git fs)
    as [H|[(H1 & H2 & root & H3)|(H1 & H2 & H3)]].
  - rewrite (main_help args git fs H). reflexivity.
  - rewrite (main_guards_pass args git root fs H1 H2 H3). simpl.
    destruct (process_args_facts root args fs) as (r & fs' & -> & _ & Hother & _).
    apply Hother. intros p Hp. apply Hq; [apply H3|exact Hp].
  - destruct (main_guards_fail args git fs H1 H2 H3) as (r' & -> & _).
    reflexivity.
Qed.

(** X17.  With the guards passed and one argument that resolves to a
    regular file that is readable and writable, [main] replaces the content
    of that file by the result of [decide_notice] for its suffix, leaves all
    other files, and returns 0.  When the file is not readable and writable
    [main] raises [OSError] and leaves every file as it is. *)
Theorem main_one_file
    git root p (fs : gmap string string) content :
  let path := resolved_path is_absolute joinpath root p in
  p <> "--help" -> guards_pass git root -> fs !! path = Some content ->
  (access_rw path = true ->
   exists result,
     decide_notice (path_suffix path) content = Return result /\
     main is_absolute joinpath path_suffix is_dir rglob access_rw [p] git fs = (Return 0, <[path := result]> fs)) /\
  (access_rw path = false -> main is_absolute joinpath path_suffix is_dir rglob access_rw [p] git fs = (Raise OSError, fs)).
Proof.
  intros path Hp Hguards Hcontent.
  assert (main is_absolute joinpath path_suffix is_dir rglob access_rw [p] git fs
          = (match (process_args is_absolute joinpath path_suffix is_dir rglob access_rw root [p] fs).1 with
             | Return _ => Return 0
             | Raise e => Raise e
             end, (process_args is_absolute joinpath path_suffix is_dir rglob access_rw root [p] fs).2)) as Hmain.
  { apply main_guards_pass;
      [intros H; apply list_elem_of_singleton in H; congruence
      |discriminate|exact Hguards]. }
  assert (is_file fs path = true) as Hfile
    by (unfold is_file; apply bool_decide_eq_true; eauto).
  rewrite Hmain. simpl process_args. fold (resolved_path is_absolute joinpath root p). fold path.
  rewrite Hfile. split; intros Hacc.
  - destruct (decide_notice_at_file path fs content Hcontent Hacc)
      as (result & Hres & ->).
    exists result. split; [exact Hres|reflexivity].
  - rewrite (decide_notice_at_denied path fs Hacc). reflexivity.
Qed.


End MainFacts.

Lemma demo_guards_pass : guards_pass demo_git "/repo".
Proof. repeat split. Qed.

Lemma main_changes_only_behind_guards_witness :
  ("--help" ∉ ["src"]) /\ ["src"] <> [] /\
  exists root, guards_pass demo_git root.
Proof.
  apply (main_changes_only_behind_guards demo_is_absolute demo_joinpath
           demo_suffix demo_is_dir demo_rglob demo_access_rw
           ["src"] demo_git demo_fs).
  intros H. apply (f_equal (fun m : gmap string string => m !! "/repo/src/a.c")) in H.
  vm_compute in H. discriminate.
Defined.

Lemma main_leaves_file_witness :
  (main demo_is_absolute demo_joinpath demo_suffix demo_is_dir demo_rglob
        demo_access_rw ["src"] demo_git demo_fs).2 !! "/repo/src/locked.c"
  = demo_fs !! "/repo/src/locked.c".
Proof.
  apply main_leaves_file. intros root p Hroot Hp.
  injection Hroot as <-. apply list_elem_of_singleton in Hp as ->.
  split; [discriminate|reflexivity].
Defined.

Lemma main_one_file_witness :
  (exists result,
     decide_notice ".c" ("int a;" +:+ Py.nl) = Return result /\
     main demo_is_absolute demo_joinpath demo_suffix demo_is_dir demo_rglob
          demo_access_rw ["src/a.c"] demo_git demo_fs
     = (Return 0, <["/repo/src/a.c" := result]> demo_fs)) /\
  main demo_is_absolute demo_joinpath demo_suffix demo_is_dir demo_rglob
       demo_access_rw ["src/locked.c"] demo_git demo_fs
  = (Raise OSError, demo_fs).
Proof.
  split.
  - destruct (main_one_file demo_is_absolute demo_joinpath demo_suffix
                demo_is_dir demo_rglob demo_access_rw demo_git "/repo"
                "src/a.c" demo_fs ("int a;" +:+ Py.nl))
      as [H _]; [discriminate|exact demo_guards_pass|reflexivity|].
    apply H. reflexivity.
  - destruct (main_one_file demo_is_absolute demo_joinpath demo_suffix
                demo_is_dir demo_rglob demo_access_rw demo_git "/repo"
                "src/locked.c" demo_fs ("int l;" +:+ Py.nl))
      as [_ H]; [discriminate|exact demo_guards_pass|reflexivity|].
    apply H. reflexivity.
Defined.

